(** * The Gemini agents of [src/gemini]: conversation history and tool calls

    A shallow embedding of the two [Agent] classes of the repository:
    - [src/gemini/toolsAgent.py]: [Agent.run] with function calling
      (module [ToolsAgent]);
    - [src/gemini/geminiTest.py]: the tool-less [Agent.run]
      (module [GeminiTest]).

    Both methods mutate [self.contents] and talk to the hosted model through
    [self.client.models.generate_content]; the tools of [toolsAgent.py] act
    on the local file system.  The embedding threads these three pieces of
    state explicitly through a state-and-exception monad, and records every
    backend dispatch and every executed tool body in a log, so that "how many
    dispatches" and "was the function invoked" are statements about data. *)

From Stdlib Require Import List String ZArith Lia.
From stdpp Require Import base option list strings gmap.
Import ListNotations.
Local Open Scope string_scope.
Local Open Scope list_scope.

(** ** Python values and exceptions *)

(** The values that travel between the model and the tools: function-call
    arguments (decoded JSON), tool results, and the schema dictionaries of
    the tool declarations. *)
#[local] Set Warnings "-register-all".
Inductive Value : Type :=
| VNone
| VBool (b : bool)
| VInt (z : Z)
| VStr (s : string)
| VList (l : list Value)
| VDict (d : list (string * Value)).

(** A raised exception: its class name and its message. *)
Record Exn : Type := PyExn { exn_class : string; exn_msg : string }.

(** The outcome of evaluating a Python expression: a value, or a raised
    exception. *)
Inductive Outcome (A : Type) : Type :=
| Ok (a : A)
| Raise (e : Exn).
Arguments Ok {A} a.
Arguments Raise {A} e.

Definition TypeError (msg : string) : Exn := PyExn "TypeError" msg.
Definition IndexError (msg : string) : Exn := PyExn "IndexError" msg.
Definition AttributeError (msg : string) : Exn := PyExn "AttributeError" msg.

(** ** The SDK's objects ([google.genai.types])

    Only the attributes the agents read.  Every attribute is [Optional] in
    the SDK, which is why [run] can fault on a response without candidates
    or without content. *)

(** [types.FunctionCall]: the model's request to run a tool. *)
Record FunctionCall : Type := {
  name : option string;
  args : option (gmap string Value)
}.

(** [types.Part]: one segment of a model turn. *)
Record Part : Type := {
  text : option string;
  function_call : option FunctionCall
}.

(** [types.Content]: a model turn. *)
Record Content : Type := {
  role : option string;
  parts : option (list Part)
}.

Record Candidate : Type := { content : option Content }.

(** [types.GenerateContentResponse]. *)
Record Response : Type := { candidates : option (list Candidate) }.

(** [types.FunctionDeclaration(name=..., description=..., parameters=...)]. *)
Record FunctionDeclaration : Type := {
  fd_name : string;
  description : string;
  parameters : Value
}.

(** [types.Tool(function_declarations=[...])]. *)
Record Tool : Type := { function_declarations : list FunctionDeclaration }.

(** [types.GenerateContentConfig( **config_params)]: the key
    ["system_instruction"] is present only when [run] put it there. *)
Record GenerateContentConfig : Type := {
  cfg_tools : list Tool;
  cfg_system_instruction : option string
}.

(** ** The conversation history [self.contents] *)

(** The parts of the dictionaries [run] builds itself:
    [{"text": contents}] and
    [{"function_response": {"name": n, "response": {"result": r}}}]. *)
Inductive DictPart : Type :=
| text_part (s : string)
| function_response (fname : string) (result : Value).

(** An element of [self.contents]: a dictionary [{"role": r, "parts": ps}]
    built by [run], or the object [response.candidates[0].content] of a
    response, appended as it is ([None] when the SDK left it unset). *)
Inductive Entry : Type :=
| dict_turn (r : string) (ps : list DictPart)
| content_obj (c : option Content).

(** ** The log

    Ghost state: one event per exchange with the backend (with the history
    and configuration it was sent and what came back) and one per tool body
    that was entered (with the keyword arguments and what came back). *)
Inductive Event : Type :=
| EvDispatch (model : string) (history : list Entry)
    (config : option GenerateContentConfig) (result : Outcome Response)
| EvInvoke (fname : string) (kwargs : gmap string Value) (result : Outcome Value).

Definition is_dispatch (ev : Event) : bool :=
  match ev with EvDispatch _ _ _ _ => true | EvInvoke _ _ _ => false end.

Definition is_invoke (ev : Event) : bool :=
  match ev with EvInvoke _ _ _ => true | EvDispatch _ _ _ _ => false end.

(** The number of backend dispatches a log records. *)
Definition dispatch_count (l : list Event) : nat :=
  length (filter (fun ev => is_dispatch ev = true) l).

(** ** Python's sequence and dictionary primitives *)

(** [xs[0]] on an [Optional] list attribute: [None] is not subscriptable,
    the empty list has no index 0. *)
Definition index0 {A : Type} (xs : option (list A)) : Outcome A :=
  match xs with
  | None => Raise (TypeError "'NoneType' object is not subscriptable")
  | Some [] => Raise (IndexError "list index out of range")
  | Some (x :: _) => Ok x
  end.

(** [d.get(k)] on a dictionary kept in insertion order (its keys are
    distinct): the tools dictionary is iterated with [.values()], so its
    order is part of the data. *)
Fixpoint dict_get {V : Type} (d : list (string * V)) (k : string) : option V :=
  match d with
  | [] => None
  | (k', v) :: d' => if String.eqb k' k then Some v else dict_get d' k
  end.

(** [list(d.values())]. *)
Definition dict_values {V : Type} (d : list (string * V)) : list V := map snd d.

(** Binding [f( **kwargs)] to the parameters of [def f(p1, ..., pn)] (none of
    which has a default): a key that is no parameter is a [TypeError], and so
    is a parameter without a key (the messages are abridged: Python's name
    the function and the argument).  The values come out in parameter order;
    the order of the keys is irrelevant. *)
Definition bind_kwargs (params : list string) (kwargs : gmap string Value)
  : Outcome (list Value) :=
  match filter (fun k => k ∉ params) (map fst (map_to_list kwargs)) with
  | _ :: _ => Raise (TypeError "got an unexpected keyword argument")
  | [] =>
      match mapM (fun p => kwargs !! p) params with
      | Some vs => Ok vs
      | None => Raise (TypeError "missing a required positional argument")
      end
  end.

(** ** The monad of [run]: state and exceptions

    A raised exception keeps the state reached so far: Python unwinds the
    stack, it does not undo [self.contents.append]. *)
Definition M (S A : Type) : Type := S -> Outcome A * S.

Definition ret {S A : Type} (a : A) : M S A := fun st => (Ok a, st).

Definition bind {S A C : Type} (m : M S A) (k : A -> M S C) : M S C :=
  fun st =>
    match m st with
    | (Ok a, st') => k a st'
    | (Raise e, st') => (Raise e, st')
    end.

Definition lift {S A : Type} (o : Outcome A) : M S A := fun st => (o, st).

Notation "x <- m ;; k" := (bind m (fun x => k))
  (at level 100, m at next level, right associativity).
Notation "m ;;; k" := (bind m (fun _ => k))
  (at level 100, right associativity).

(** [for x in xs: f(x)]: an exception leaves the loop. *)
Fixpoint for_each {S A : Type} (f : A -> M S unit) (xs : list A) : M S unit :=
  match xs with
  | [] => ret tt
  | x :: xs' => f x ;;; for_each f xs'
  end.

(** Line 193 of [toolsAgent.py], line 9 of [geminiTest.py]: the turn for
    the user's input. *)
Definition user_turn (user_text : string) : Entry :=
  dict_turn "user" [text_part user_text].

(** Two equations for one term: keep one, and what it says of the other's
    right-hand side. *)
Ltac same_lhs :=
  repeat match goal with
         | H1 : ?x = _, H2 : ?x = _ |- _ => rewrite H1 in H2; simplify_eq
         end.

(** ** The terminal: typed lines and printed lines *)

Definition EOFError (msg : string) : Exn := PyExn "EOFError" msg.

(** [str.lower()] on the letters A-Z.  The scripts only compare the result
    with the words [exit] and [quit]: no character outside ASCII lowers to
    one of their letters, so on the UTF-8 bytes of the input this decides
    the same comparisons as Python's lowering of the whole of Unicode. *)
Definition lower_ascii (c : Ascii.ascii) : Ascii.ascii :=
  let n := Ascii.nat_of_ascii c in
  if (65 <=? n)%nat && (n <=? 90)%nat then Ascii.ascii_of_nat (n + 32) else c.

Fixpoint lower (s : string) : string :=
  match s with
  | EmptyString => EmptyString
  | String c s' => String (lower_ascii c) (lower s')
  end.

(** What an f-string interpolates: the formatted text of an object is left
    to Python, the object is kept. *)
Inductive Shown : Type :=
| shown_nat (n : nat)
| shown_str (s : option string)
| shown_value (v : Value)
| shown_args (kwargs : option (gmap string Value))
| shown_exn (e : Exn).

(** A printed line: the literal pieces of the f-string and the interpolated
    objects, in order. *)
Inductive Frag : Type :=
| lit (s : string)
| fmt (x : Shown).

Definition newline : string := String (Ascii.ascii_of_nat 10) EmptyString.

(** * [src/gemini/toolsAgent.py] *)

Module ToolsAgent.

Section Agent.

(** The two external collaborators, as parameters:
    - [B], the state behind [self.client], and [generate_content], one
      exchange [self.client.models.generate_content(model=..., contents=...,
      config=...)], which answers or raises;
    - [W], the world the tools act on (the local file system). *)
Context {B W : Type}.
Variable generate_content :
  B -> string -> list Entry -> option GenerateContentConfig -> Outcome Response * B.

(** A Python function [def f(p1, ..., pn): body]: its parameter names, and
    its body on the bound arguments, which may change the world and returns
    or raises. *)
Record PyFunction : Type := {
  params : list string;
  body : list Value -> W -> Outcome Value * W
}.

(** A value of the tools dictionary:
    [{"definition": <declaration>, "function": <callable>}]. *)
Record ToolEntry : Type := {
  definition : FunctionDeclaration;
  function : PyFunction
}.

(** The attributes [__init__] sets. *)
Record Agent : Type := {
  model : string;
  client : B;
  contents : list Entry;
  tools : list (string * ToolEntry);
  system_instruction : option string
}.

(** [Agent(model, tools, system_instruction)]: [__init__], given a client. *)
Definition init (m : string) (c : B) (ts : list (string * ToolEntry))
    (si : option string) : Agent :=
  {| model := m; client := c; contents := []; tools := ts; system_instruction := si |}.

(** Everything [run] can read or change. *)
Record Machine : Type := {
  self : Agent;
  world : W;
  log : list Event
}.

(** Assignments to one attribute of [self]. *)
Definition set_contents (h : list Entry) (a : Agent) : Agent :=
  {| model := model a; client := client a; contents := h;
     tools := tools a; system_instruction := system_instruction a |}.

Definition set_client (c : B) (a : Agent) : Agent :=
  {| model := model a; client := c; contents := contents a;
     tools := tools a; system_instruction := system_instruction a |}.

(** [self.contents.append(e)]. *)
Definition append (e : Entry) : M Machine unit :=
  fun st =>
    (Ok tt,
     {| self := set_contents (contents (self st) ++ [e]) (self st);
        world := world st; log := log st |}).

(** Lines 202-216: the tool declarations in the order of
    [self.tools.values()], and the system instruction when it is truthy
    (neither [None] nor the empty string). *)
Definition make_config (a : Agent) : GenerateContentConfig :=
  {| cfg_tools :=
       [ {| function_declarations := map definition (dict_values (tools a)) |} ];
     cfg_system_instruction :=
       match system_instruction a with
       | Some s => if String.eqb s "" then None else Some s
       | None => None
       end |}.

(** [self.client.models.generate_content(model=self.model,
    contents=self.contents, config=config)]: one dispatch.  Whatever comes
    back, answer or fault, is logged and handed on; the history is only
    read. *)
Definition dispatch (config : GenerateContentConfig) : M Machine Response :=
  fun st =>
    let a := self st in
    let '(res, c') := generate_content (client a) (model a) (contents a) (Some config) in
    (res,
     {| self := set_client c' a;
        world := world st;
        log := log st ++ [EvDispatch (model a) (contents a) (Some config) res] |}).

(** [c.parts] for [c = response.candidates[0].content]: [None] has no
    attribute [parts]. *)
Definition get_parts (c : option Content) : Outcome (option (list Part)) :=
  match c with
  | None => Raise (AttributeError "'NoneType' object has no attribute 'parts'")
  | Some c => Ok (parts c)
  end.

(** Lines 238-242:
    [parts and hasattr(parts[0], 'function_call') and parts[0].function_call]
    as a truth value.  [parts] is falsy when [None] or empty, every [Part]
    has the attribute, and the attribute is truthy when it is not [None].
    Only the first part is looked at. *)
Definition has_function_call (ps : option (list Part)) : bool :=
  match ps with
  | Some (p0 :: _) => bool_decide (is_Some (function_call p0))
  | Some [] | None => false
  end.

(** Lines 248-252:
    [[part.function_call for part in parts if part.function_call]]. *)
Definition function_calls (ps : list Part) : list FunctionCall :=
  omap function_call ps.

(** [f( **function_args)] for the tool named [fname]: [**None] is a
    [TypeError], and so is a failed binding; both are raised before the
    body is entered.  An entered body is logged with its outcome. *)
Definition call_kwargs (fname : string) (f : PyFunction)
    (function_args : option (gmap string Value)) : M Machine Value :=
  fun st =>
    match function_args with
    | None => (Raise (TypeError "argument after ** must be a mapping, not NoneType"), st)
    | Some kwargs =>
        match bind_kwargs (params f) kwargs with
        | Raise e => (Raise e, st)
        | Ok vs =>
            let '(res, w') := body f vs (world st) in
            (res, {| self := self st; world := w';
                     log := log st ++ [EvInvoke fname kwargs res] |})
        end
    end.

(** [self.tools[function_name]] behind the test
    [function_name in self.tools] ([None] is in no dictionary of strings). *)
Definition lookup_tool (ts : list (string * ToolEntry))
    (function_name : option string) : option (string * ToolEntry) :=
  match function_name with
  | Some n => match dict_get ts n with
              | Some t => Some (n, t)
              | None => None
              end
  | None => None
  end.

(** Lines 257-282, the body of the loop over [function_calls]: a call
    whose name is in [self.tools] runs the function and appends one
    user-role turn holding its result; any other call does nothing. *)
Definition run_function_call (fc : FunctionCall) : M Machine unit :=
  fun st =>
    let function_name := name fc in
    let function_args := args fc in
    match lookup_tool (tools (self st)) function_name with
    | Some (n, t) =>
        (result <- call_kwargs n (function t) function_args ;;
         append (dict_turn "user" [function_response n result])) st
    | None => ret tt st
    end.

(** Lines 285-305 on the tool branch: the second dispatch, whose response
    is appended and returned as it is. *)
Definition second_dispatch (config : GenerateContentConfig) : M Machine Response :=
  response <- dispatch config ;;
  cand <- lift (index0 (candidates response)) ;;
  append (content_obj (content cand)) ;;;
  ret response.

(** Lines 234-305: what [run] does once the first response's content has
    been appended.  On the tool branch [parts] is a list with a first
    element, so the [default] is never used. *)
Definition after_first_dispatch (config : GenerateContentConfig)
    (response : Response) (ps : option (list Part)) : M Machine Response :=
  if has_function_call ps then
    for_each run_function_call (function_calls (default [] ps)) ;;;
    second_dispatch config
  else
    ret response.

(** [Agent.run(self, contents)], lines 170-305.  The [print] calls write
    to the terminal only and are left out. *)
Definition run (user_text : string) : M Machine Response :=
  append (user_turn user_text) ;;;
  (fun st =>
     (let config := make_config (self st) in
      response <- dispatch config ;;
      cand <- lift (index0 (candidates response)) ;;
      append (content_obj (content cand)) ;;;
      ps <- lift (get_parts (content cand)) ;;
      after_first_dispatch config response ps) st).

(** A caller that calls [run] once per input, whatever the previous call
    did (it may catch a fault and go on): the outcomes, and the final
    state. *)
Fixpoint run_each (inputs : list string) (st : Machine)
  : list (Outcome Response) * Machine :=
  match inputs with
  | [] => ([], st)
  | i :: inputs' =>
      let '(o, st') := run i st in
      let '(os, st'') := run_each inputs' st' in
      (o :: os, st'')
  end.

(** ** The tools of the script: [read_file], [write_file], [list_dir]

    The operating system's part is a parameter: what
    [with open(p, "r") as f: f.read()], [with open(p, "w") as f: f.write(c)],
    [os.path.expanduser(p)] and [os.listdir(p)] do to the world, and whether
    they return or raise.  Python checks no annotation: whatever value the
    model supplied is handed to them. *)
Variable open_read : Value -> W -> Outcome Value * W.
Variable open_write : Value -> Value -> W -> Outcome unit * W.
Variable expanduser : Value -> W -> Outcome Value * W.
Variable listdir : Value -> W -> Outcome Value * W.

(** A body entered with a number of arguments its [def] does not have:
    [bind_kwargs] never does this. *)
Definition arity_fault (w : W) : Outcome Value * W :=
  (Raise (TypeError "wrong number of arguments"), w).

(** Lines 106-109. *)
Definition read_file : PyFunction :=
  {| params := ["file_path"];
     body := fun vs w =>
       match vs with
       | [file_path] => open_read file_path w
       | _ => arity_fault w
       end |}.

(** Lines 111-115. *)
Definition write_file : PyFunction :=
  {| params := ["file_path"; "contents"];
     body := fun vs w =>
       match vs with
       | [file_path; contents] =>
           match open_write file_path contents w with
           | (Ok _, w') => (Ok (VBool true), w')
           | (Raise e, w') => (Raise e, w')
           end
       | _ => arity_fault w
       end |}.

(** Lines 117-120. *)
Definition list_dir : PyFunction :=
  {| params := ["directory_path"];
     body := fun vs w =>
       match vs with
       | [directory_path] =>
           match expanduser directory_path w with
           | (Ok full_path, w') => listdir full_path w'
           | (Raise e, w') => (Raise e, w')
           end
       | _ => arity_fault w
       end |}.

(** The schema dictionary of a declaration: an object with the given string
    properties, all of them required (lines 53-62, 69-78, 85-98). *)
Definition string_property (descr : string) : Value :=
  VDict [("type", VStr "string"); ("description", VStr descr)].

Definition object_schema (props : list (string * Value)) (required : list string)
  : Value :=
  VDict [("type", VStr "object");
         ("properties", VDict props);
         ("required", VList (map VStr required))].

Definition read_file_definition : FunctionDeclaration :=
  {| fd_name := "read_file";
     description := "读取文件并返回其内容。";
     parameters :=
       object_schema [("file_path", string_property "要读取的文件路径。")]
                     ["file_path"] |}.

Definition list_dir_definition : FunctionDeclaration :=
  {| fd_name := "list_dir";
     description := "列出指定目录中的所有文件和文件夹。使用 '.' 表示当前目录。";
     parameters :=
       object_schema
         [("directory_path",
           string_property "要列出的目录路径，例如 '.' 表示当前目录，'..' 表示上级目录")]
         ["directory_path"] |}.

Definition write_file_definition : FunctionDeclaration :=
  {| fd_name := "write_file";
     description := "使用给定内容写入文件。";
     parameters :=
       object_schema
         [("file_path", string_property "要写入的文件路径。");
          ("contents", string_property "要写入文件的内容。")]
         ["file_path"; "contents"] |}.

(** Lines 128-141. *)
Definition file_tools : list (string * ToolEntry) :=
  [ ("read_file", {| definition := read_file_definition; function := read_file |});
    ("write_file", {| definition := write_file_definition; function := write_file |});
    ("list_dir", {| definition := list_dir_definition; function := list_dir |}) ].

(** ** The tool loop, as a relation on its log

    [loop ts fcs w invs o w']: run on the calls [fcs] from the world [w]
    with the tools [ts], the loop of lines 257-282 enters the bodies logged
    in [invs], ends with outcome [o] and leaves the world [w']. *)

Definition history (st : Machine) : list Entry := contents (self st).

(** The turn line 274 appends for a body that was entered and returned. *)
Definition result_turn (ev : Event) : option Entry :=
  match ev with
  | EvInvoke n _ (Ok v) => Some (dict_turn "user" [function_response n v])
  | _ => None
  end.

(** The machine after a loop that logged [invs] and left the world [w']. *)
Definition after_calls (st : Machine) (invs : list Event) (w' : W) : Machine :=
  {| self := set_contents (history st ++ omap result_turn invs) (self st);
     world := w';
     log := log st ++ invs |}.

(** What [f( **function_args)] does before the body: the bound values, or
    the [TypeError]. *)
Definition bound_args (f : PyFunction) (function_args : option (gmap string Value))
  : Outcome (gmap string Value * list Value) :=
  match function_args with
  | None => Raise (TypeError "argument after ** must be a mapping, not NoneType")
  | Some kwargs =>
      match bind_kwargs (params f) kwargs with
      | Ok vs => Ok (kwargs, vs)
      | Raise e => Raise e
      end
  end.

Inductive loop (ts : list (string * ToolEntry))
  : list FunctionCall -> W -> list Event -> Outcome unit -> W -> Prop :=
| loop_done w :
    loop ts [] w [] (Ok tt) w
| loop_skip fc fcs w invs o w' :
    lookup_tool ts (name fc) = None ->
    loop ts fcs w invs o w' ->
    loop ts (fc :: fcs) w invs o w'
| loop_unbound fc fcs w n t e :
    lookup_tool ts (name fc) = Some (n, t) ->
    bound_args (function t) (args fc) = Raise e ->
    loop ts (fc :: fcs) w [] (Raise e) w
| loop_fault fc fcs w n t kwargs vs e w' :
    lookup_tool ts (name fc) = Some (n, t) ->
    bound_args (function t) (args fc) = Ok (kwargs, vs) ->
    body (function t) vs w = (Raise e, w') ->
    loop ts (fc :: fcs) w [EvInvoke n kwargs (Raise e)] (Raise e) w'
| loop_return fc fcs w n t kwargs vs v w1 invs o w' :
    lookup_tool ts (name fc) = Some (n, t) ->
    bound_args (function t) (args fc) = Ok (kwargs, vs) ->
    body (function t) vs w = (Ok v, w1) ->
    loop ts fcs w1 invs o w' ->
    loop ts (fc :: fcs) w (EvInvoke n kwargs (Ok v) :: invs) o w'.

(** ** The paths through [run] *)

(** The history the first dispatch is sent. *)
Definition first_history (st : Machine) (user_text : string) : list Entry :=
  history st ++ [user_turn user_text].

(** The log entry of a dispatch of this run: same model, same
    configuration, the history [h]. *)
Definition dispatch_event (st : Machine) (h : list Entry)
    (res : Outcome Response) : Event :=
  EvDispatch (model (self st)) h (Some (make_config (self st))) res.

(** The machine [run] reaches from [st] with the client in state [c], the
    history [h], the world [w] and the new events [evs]. *)
Definition reach (st : Machine) (c : B) (h : list Entry) (w : W)
    (evs : list Event) : Machine :=
  {| self := set_client c (set_contents h (self st));
     world := w;
     log := log st ++ evs |}.

(** The first dispatch, as [run] issues it from [st]. *)
Definition first_dispatch (st : Machine) (user_text : string)
  : Outcome Response * B :=
  generate_content (client (self st)) (model (self st))
    (first_history st user_text) (Some (make_config (self st))).

(** The second dispatch, issued with the history [h] to the client left in
    state [c] by the first. *)
Definition next_dispatch (st : Machine) (c : B) (h : list Entry)
  : Outcome Response * B :=
  generate_content c (model (self st)) h (Some (make_config (self st))).

(** The eight ways a call of [run] can go, each with its outcome and the
    machine it leaves. *)
Inductive run_trace (user_text : string) (st : Machine)
  : Outcome Response -> Machine -> Prop :=
| trace_first_fault e c1 :
    first_dispatch st user_text = (Raise e, c1) ->
    run_trace user_text st (Raise e)
      (reach st c1 (first_history st user_text) (world st)
         [dispatch_event st (first_history st user_text) (Raise e)])
| trace_no_candidate r c1 e :
    first_dispatch st user_text = (Ok r, c1) ->
    index0 (candidates r) = Raise e ->
    run_trace user_text st (Raise e)
      (reach st c1 (first_history st user_text) (world st)
         [dispatch_event st (first_history st user_text) (Ok r)])
| trace_no_content r c1 cand e :
    first_dispatch st user_text = (Ok r, c1) ->
    index0 (candidates r) = Ok cand ->
    content cand = None ->
    get_parts None = Raise e ->
    run_trace user_text st (Raise e)
      (reach st c1 (first_history st user_text ++ [content_obj None]) (world st)
         [dispatch_event st (first_history st user_text) (Ok r)])
| trace_final r c1 cand ct :
    first_dispatch st user_text = (Ok r, c1) ->
    index0 (candidates r) = Ok cand ->
    content cand = Some ct ->
    has_function_call (parts ct) = false ->
    run_trace user_text st (Ok r)
      (reach st c1 (first_history st user_text ++ [content_obj (Some ct)]) (world st)
         [dispatch_event st (first_history st user_text) (Ok r)])
| trace_tool_fault r c1 cand ct invs e w' :
    first_dispatch st user_text = (Ok r, c1) ->
    index0 (candidates r) = Ok cand ->
    content cand = Some ct ->
    has_function_call (parts ct) = true ->
    loop (tools (self st)) (function_calls (default [] (parts ct)))
      (world st) invs (Raise e) w' ->
    run_trace user_text st (Raise e)
      (reach st c1
         (first_history st user_text ++ content_obj (Some ct) :: omap result_turn invs)
         w'
         (dispatch_event st (first_history st user_text) (Ok r) :: invs))
| trace_second_fault r c1 cand ct invs w' (h2 : list Entry) e c2 :
    first_dispatch st user_text = (Ok r, c1) ->
    index0 (candidates r) = Ok cand ->
    content cand = Some ct ->
    has_function_call (parts ct) = true ->
    loop (tools (self st)) (function_calls (default [] (parts ct)))
      (world st) invs (Ok tt) w' ->
    h2 = first_history st user_text ++ content_obj (Some ct) :: omap result_turn invs ->
    next_dispatch st c1 h2 = (Raise e, c2) ->
    run_trace user_text st (Raise e)
      (reach st c2 h2 w'
         (dispatch_event st (first_history st user_text) (Ok r)
            :: invs ++ [dispatch_event st h2 (Raise e)]))
| trace_second_no_candidate r c1 cand ct invs w' (h2 : list Entry) r2 c2 e :
    first_dispatch st user_text = (Ok r, c1) ->
    index0 (candidates r) = Ok cand ->
    content cand = Some ct ->
    has_function_call (parts ct) = true ->
    loop (tools (self st)) (function_calls (default [] (parts ct)))
      (world st) invs (Ok tt) w' ->
    h2 = first_history st user_text ++ content_obj (Some ct) :: omap result_turn invs ->
    next_dispatch st c1 h2 = (Ok r2, c2) ->
    index0 (candidates r2) = Raise e ->
    run_trace user_text st (Raise e)
      (reach st c2 h2 w'
         (dispatch_event st (first_history st user_text) (Ok r)
            :: invs ++ [dispatch_event st h2 (Ok r2)]))
| trace_answer r c1 cand ct invs w' (h2 : list Entry) r2 c2 cand2 :
    first_dispatch st user_text = (Ok r, c1) ->
    index0 (candidates r) = Ok cand ->
    content cand = Some ct ->
    has_function_call (parts ct) = true ->
    loop (tools (self st)) (function_calls (default [] (parts ct)))
      (world st) invs (Ok tt) w' ->
    h2 = first_history st user_text ++ content_obj (Some ct) :: omap result_turn invs ->
    next_dispatch st c1 h2 = (Ok r2, c2) ->
    index0 (candidates r2) = Ok cand2 ->
    run_trace user_text st (Ok r2)
      (reach st c2 (h2 ++ [content_obj (content cand2)]) w'
         (dispatch_event st (first_history st user_text) (Ok r)
            :: invs ++ [dispatch_event st h2 (Ok r2)])).

(** ** What the loop's log says *)

(** The call names a key of the tools dictionary. *)
Definition registered (ts : list (string * ToolEntry)) (fc : FunctionCall) : Prop :=
  is_Some (lookup_tool ts (name fc)).

#[local] Instance registered_dec ts fc : Decision (registered ts fc).
Proof. unfold registered. apply _. Defined.

(** [ev] logs that the function of the registered call [fc] was entered
    with the call's arguments and returned. *)
Definition answered (ts : list (string * ToolEntry)) (fc : FunctionCall)
    (ev : Event) : Prop :=
  exists n t kwargs vs v,
    lookup_tool ts (name fc) = Some (n, t)
    /\ bound_args (function t) (args fc) = Ok (kwargs, vs)
    /\ ev = EvInvoke n kwargs (Ok v).

(** [turn] is a user-role turn whose only part is a function response
    under the name of the call [fc]. *)
Definition result_for (fc : FunctionCall) (turn : Entry) : Prop :=
  exists n v, name fc = Some n /\ turn = dict_turn "user" [function_response n v].

(** ** The main program: the chat loop and the transcript *)

(** Calls of [run] in a row, as the chat loop makes them: the first fault
    ends them, since the script catches nothing. *)
Fixpoint run_all (inputs : list string) : M Machine (list Response) :=
  match inputs with
  | [] => ret []
  | i :: inputs' =>
      r <- run i ;;
      rs <- run_all inputs' ;;
      ret (r :: rs)
  end.

(** Line 323: [user_input.lower() in ['exit', 'quit']]. *)
Definition is_exit (user_input : string) : bool :=
  bool_decide (lower user_input ∈ ["exit"; "quit"]).

(** Lines 321-326: [while True], over the lines typed at the terminal.
    [input] at the end of the input raises [EOFError].  Line 326 writes the
    response to the terminal and is left out, as the [print] calls of [run]
    are.  The loop returns the responses it received and the lines it left
    unread. *)
Fixpoint chat (stdin : list string) : M Machine (list Response * list string) :=
  match stdin with
  | [] => lift (Raise (EOFError "EOF when reading a line"))
  | user_input :: stdin' =>
      if is_exit user_input then ret ([], stdin')
      else
        response <- run user_input ;;
        rest <- chat stdin' ;;
        ret (response :: rest.1, rest.2)
  end.

(** Lines 315-319. *)
Definition the_agent (c : B) : Agent :=
  init "gemini-2.5-flash" c file_tools
    (Some "你是一个有帮助的编码助手。回应时像 Linus Torvalds 一样。").

(** Lines 366-379: the lines printed for one part of a turn.  A part built
    by [run] is a dictionary with one key; a part of a model turn shows its
    text when that is a non-empty string, else its function call, else
    nothing. *)
Definition show_dict_part (p : DictPart) : list (list Frag) :=
  match p with
  | text_part s => [[lit "  文本: "; fmt (shown_str (Some s))]]
  | function_response n result =>
      [[lit "  函数响应: ";
        fmt (shown_value (VDict [("name", VStr n);
                                 ("response", VDict [("result", result)])]))]]
  end.

Definition show_part (p : Part) : list (list Frag) :=
  match text p with
  | Some (String c s) => [[lit "  文本: "; fmt (shown_str (Some (String c s)))]]
  | Some EmptyString | None =>
      match function_call p with
      | Some fc =>
          [[lit "  函数调用: "; fmt (shown_str (name fc)); lit "(";
            fmt (shown_args (args fc)); lit ")"]]
      | None => []
      end
  end.

(** Line 354: the header of entry number [n], as printed. *)
Definition header_line (n : nat) : list Frag :=
  [lit (newline ++ "轮次 ")%string; fmt (shown_nat n); lit ":"].

(** Lines 353-379 for the entry at index [i]: the header, the role, and the
    parts.  A dictionary has its role and parts; [getattr] gives the
    defaults for the object [None]; a content object whose [parts] is [None]
    cannot be iterated. *)
Definition show_entry (i : nat) (e : Entry) : list (list Frag) * Outcome unit :=
  let header := header_line (i + 1) in
  match e with
  | dict_turn r ps =>
      (header :: [lit "  角色: "; fmt (shown_str (Some r))]
              :: flat_map show_dict_part ps,
       Ok tt)
  | content_obj None =>
      ([header; [lit "  角色: "; fmt (shown_str (Some "model"))]], Ok tt)
  | content_obj (Some c) =>
      match parts c with
      | Some ps =>
          (header :: [lit "  角色: "; fmt (shown_str (role c))]
                  :: flat_map show_part ps,
           Ok tt)
      | None =>
          ([header; [lit "  角色: "; fmt (shown_str (role c))]],
           Raise (TypeError "'NoneType' object is not iterable"))
      end
  end.

(** [for i, content in enumerate(agent.contents)], from index [i]. *)
Fixpoint show_from (i : nat) (h : list Entry) : list (list Frag) * Outcome unit :=
  match h with
  | [] => ([], Ok tt)
  | e :: h' =>
      match show_entry i e with
      | (ls, Ok _) => let '(ls', o) := show_from (S i) h' in (ls ++ ls', o)
      | (ls, Raise x) => (ls, Raise x)
      end
  end.

Definition show_history (h : list Entry) : list (list Frag) * Outcome unit :=
  show_from 0 h.

Definition is_header (l : list Frag) : bool :=
  match l with
  | [lit _; fmt (shown_nat _); lit _] => true
  | _ => false
  end.

(** An entry the transcript can show: anything but a content object
    without parts. *)
Definition showable (e : Entry) : Prop :=
  match e with
  | content_obj (Some c) => is_Some (parts c)
  | _ => True
  end.

(** Line 332: the question the script asks after the chat. *)
Definition question : string := "当前目录中有几个包含tools名字的文件".

(** Lines 346-381 as a step of the program: the transcript of
    [agent.contents], or the fault that stops it. *)
Definition display : M Machine (list (list Frag)) :=
  fun st =>
    match show_history (contents (self st)) with
    | (ls, Ok _) => (Ok ls, st)
    | (_, Raise e) => (Raise e, st)
    end.

(** Lines 321-381: the chat, then the script's own question, then the
    transcript (the final answer of lines 341-344 is written to the terminal
    and left out).  Nothing is caught: the first fault ends the program. *)
Definition main (stdin : list string) : M Machine (list (list Frag)) :=
  chat stdin ;;;
  run question ;;;
  display.

(** The machine the program starts on: the agent of lines 315-319 on a
    client [c], in the world [w]. *)
Definition start (c : B) (w : W) : Machine :=
  {| self := the_agent c; world := w; log := [] |}.

(** Reading a declaration's schema dictionary: the names under
    ["required"] and the keys under ["properties"]. *)
Definition schema_field (schema : Value) (k : string) : option Value :=
  match schema with
  | VDict d => dict_get d k
  | _ => None
  end.

Definition required_of (schema : Value) : list string :=
  match schema_field schema "required" with
  | Some (VList l) => omap (fun v => match v with VStr s => Some s | _ => None end) l
  | _ => []
  end.

Definition properties_of (schema : Value) : list string :=
  match schema_field schema "properties" with
  | Some (VDict d) => map fst d
  | _ => []
  end.

End Agent.

End ToolsAgent.

(** * [src/gemini/geminiTest.py] *)

Module GeminiTest.

Section Agent.

(** The backend, as in [ToolsAgent]; this script passes no [config]. *)
Context {B : Type}.
Variable generate_content :
  B -> string -> list Entry -> option GenerateContentConfig -> Outcome Response * B.

(** The attributes [__init__] sets (lines 4-7). *)
Record Agent : Type := {
  model : string;
  client : B;
  contents : list Entry
}.

Definition init (m : string) (c : B) : Agent :=
  {| model := m; client := c; contents := [] |}.

Record Machine : Type := {
  self : Agent;
  log : list Event
}.

Definition history (st : Machine) : list Entry := contents (self st).

(** [self.contents.append(e)]. *)
Definition append (e : Entry) : M Machine unit :=
  fun st =>
    (Ok tt,
     {| self := {| model := model (self st); client := client (self st);
                   contents := contents (self st) ++ [e] |};
        log := log st |}).

(** Line 10: [self.client.models.generate_content(model=self.model,
    contents=self.contents)]. *)
Definition dispatch : M Machine Response :=
  fun st =>
    let a := self st in
    let '(res, c') := generate_content (client a) (model a) (contents a) None in
    (res,
     {| self := {| model := model a; client := c'; contents := contents a |};
        log := log st ++ [EvDispatch (model a) (contents a) None res] |}).

(** [Agent.run(self, contents)], lines 8-12. *)
Definition run (user_text : string) : M Machine Response :=
  append (user_turn user_text) ;;;
  response <- dispatch ;;
  cand <- lift (index0 (candidates response)) ;;
  append (content_obj (content cand)) ;;;
  ret response.

(** Calls in a row, as lines 14-23 make them: the first fault ends the
    script, and the calls after it are not made. *)
Fixpoint run_all (inputs : list string) : M Machine (list Response) :=
  match inputs with
  | [] => ret []
  | i :: inputs' =>
      r <- run i ;;
      rs <- run_all inputs' ;;
      ret (r :: rs)
  end.

(** A caller that goes on after a fault. *)
Fixpoint run_each (inputs : list string) (st : Machine)
  : list (Outcome Response) * Machine :=
  match inputs with
  | [] => ([], st)
  | i :: inputs' =>
      let '(o, st') := run i st in
      let '(os, st'') := run_each inputs' st' in
      (o :: os, st'')
  end.

(** The one dispatch of a call from [st]. *)
Definition the_dispatch (st : Machine) (user_text : string)
  : Outcome Response * B :=
  generate_content (client (self st)) (model (self st))
    (history st ++ [user_turn user_text]) None.

End Agent.

End GeminiTest.

(** * [src/list_models.py] *)

Module ListModels.

(** A model of the listing, as far as the script reads it: [hasattr] is
    true of an attribute that is [Some], whatever its value. *)
Record Model : Type := {
  model_name : Value;
  supported_generation_methods : option Value;
  display_name : option Value
}.

(** How the script ends: [exit(n)] or the normal end of the file (status
    0), or an exception nobody caught. *)
Inductive Ending : Type :=
| exited (status : nat)
| crashed (e : Exn).

(** The truth value of [os.environ.get(k)]: a variable that is not set
    gives [None], and the empty string is as false as [None]. *)
Definition truthy (v : option string) : bool :=
  match v with
  | Some (String _ _) => true
  | Some EmptyString | None => false
  end.

(** [a or b]. *)
Definition py_or (a b : option string) : option string :=
  if truthy a then a else b.

(** Line 5. *)
Definition api_key (environ : gmap string string) : option string :=
  py_or (environ !! "GEMINI_API_KEY") (environ !! "GOOGLE_API_KEY").

(** ["-" * 60]. *)
Fixpoint repeat_string (n : nat) (s : string) : string :=
  match n with
  | O => EmptyString
  | S n' => (s ++ repeat_string n' s)%string
  end.

(** Lines 17-22: the lines printed for one model. *)
Definition show_model (m : Model) : list (list Frag) :=
  [[lit "模型名称: "; fmt (shown_value (model_name m))]]
  ++ match supported_generation_methods m with
     | Some v => [[lit "  支持的方法: "; fmt (shown_value v)]]
     | None => []
     end
  ++ match display_name m with
     | Some v => [[lit "  显示名称: "; fmt (shown_value v)]]
     | None => []
     end
  ++ [[lit (repeat_string 60 "-")]].

Definition is_separator (l : list Frag) : bool :=
  match l with
  | [lit s] => String.eqb s (repeat_string 60 "-")
  | _ => false
  end.

Section Script.

(** The SDK, as parameters: [genai.Client(api_key=...)], which returns a
    client or raises; [client.models.list()] iterated to its end, as the
    models it yields and the fault that stops the iteration, if one does;
    and whether an exception is an instance of [Exception] (all but the
    likes of [KeyboardInterrupt], which [except Exception] lets through). *)
Context {C : Type}.
Variable new_client : string -> Outcome C.
Variable list_models : C -> list Model * option Exn.
Variable is_Exception : Exn -> bool.

(** The whole script: what it prints and how it ends. *)
Definition script (environ : gmap string string) : list (list Frag) * Ending :=
  match api_key environ with
  | Some (String c k) =>
      match new_client (String c k) with
      | Raise e => ([], crashed e)
      | Ok client =>
          let title := [lit ("可用的 Gemini 模型：" ++ newline)%string] in
          let '(models, fault) := list_models client in
          let listed := title :: flat_map show_model models in
          match fault with
          | None => (listed, exited 0)
          | Some e =>
              if is_Exception e
              then (listed ++ [[lit "列出模型时出错: "; fmt (shown_exn e)]], exited 0)
              else (listed, crashed e)
          end
      end
  | Some EmptyString | None =>
      ([[lit "错误: 请先设置 GEMINI_API_KEY 或 GOOGLE_API_KEY 环境变量"];
        [lit "例如: export GEMINI_API_KEY='your-api-key'"]],
       exited 1)
  end.

End Script.

End ListModels.

(** * Scenarios

    Test doubles for the two collaborators, and the sessions the examples
    below run: a backend that answers from a script, and a file system that
    is a flat list of named files. *)

Module Scenario.

(** The scripted backend: each dispatch answers with the next outcome of
    the script, whatever it is sent; an exhausted script is a server
    fault. *)
Definition scripted (script : list (Outcome Response)) (m : string)
    (h : list Entry) (cfg : option GenerateContentConfig)
  : Outcome Response * list (Outcome Response) :=
  match script with
  | [] => (Raise (PyExn "ServerError" "no scripted answer left"), [])
  | r :: script' => (r, script')
  end.

(** The toy file system: the files of one directory ["."], by name. *)
Fixpoint file_get (fs : list (string * string)) (p : string) : option string :=
  match fs with
  | [] => None
  | (q, c) :: fs' => if String.eqb q p then Some c else file_get fs' p
  end.

Fixpoint file_put (fs : list (string * string)) (p c : string)
  : list (string * string) :=
  match fs with
  | [] => [(p, c)]
  | (q, d) :: fs' => if String.eqb q p then (p, c) :: fs' else (q, d) :: file_put fs' p c
  end.

Definition toy_open_read (p : Value) (fs : list (string * string))
  : Outcome Value * list (string * string) :=
  match p with
  | VStr path =>
      match file_get fs path with
      | Some c => (Ok (VStr c), fs)
      | None => (Raise (PyExn "FileNotFoundError" path), fs)
      end
  | _ => (Raise (TypeError "expected str, bytes or os.PathLike object"), fs)
  end.

Definition toy_open_write (p c : Value) (fs : list (string * string))
  : Outcome unit * list (string * string) :=
  match p, c with
  | VStr path, VStr data => (Ok tt, file_put fs path data)
  | VStr path, _ =>
      (Raise (TypeError "write() argument must be str"), file_put fs path "")
  | _, _ => (Raise (TypeError "expected str, bytes or os.PathLike object"), fs)
  end.

Definition toy_expanduser (p : Value) (fs : list (string * string))
  : Outcome Value * list (string * string) :=
  match p with
  | VStr _ => (Ok p, fs)
  | _ => (Raise (TypeError "expected str, bytes or os.PathLike object"), fs)
  end.

Definition toy_listdir (p : Value) (fs : list (string * string))
  : Outcome Value * list (string * string) :=
  match p with
  | VStr "." => (Ok (VList (map (fun f => VStr f.1) fs)), fs)
  | VStr path => (Raise (PyExn "FileNotFoundError" path), fs)
  | _ => (Raise (TypeError "expected str, bytes or os.PathLike object"), fs)
  end.

(** [file_tools] over the toy file system. *)
Definition toy_tools
  : list (string * ToolsAgent.ToolEntry (W := list (string * string))) :=
  ToolsAgent.file_tools toy_open_read toy_open_write toy_expanduser toy_listdir.

(** Parts, responses and requests. *)
Definition says (s : string) : Part :=
  {| text := Some s; function_call := None |}.

Definition calls (n : string) (kwargs : list (string * Value)) : Part :=
  {| text := None;
     function_call := Some {| name := Some n; args := Some (list_to_map kwargs) |} |}.

Definition model_turn (ps : list Part) : Content :=
  {| role := Some "model"; parts := Some ps |}.

Definition answer (ps : list Part) : Response :=
  {| candidates := Some [ {| content := Some (model_turn ps) |} ] |}.

(** A fresh session of [toolsAgent.py] (lines 315-319) in front of a
    scripted backend, with the files [a.txt] and [b.txt]. *)
Definition session (script : list (Outcome Response))
  : ToolsAgent.Machine (B := list (Outcome Response)) (W := list (string * string)) :=
  {| ToolsAgent.self :=
       ToolsAgent.init "gemini-2.5-flash" script toy_tools
         (Some "你是一个有帮助的编码助手。回应时像 Linus Torvalds 一样。");
     ToolsAgent.world := [("a.txt", "alpha"); ("b.txt", "beta")];
     ToolsAgent.log := [] |}.

Definition run (user_text : string) (script : list (Outcome Response)) :=
  ToolsAgent.run scripted user_text (session script).

(** An entry that holds a function response. *)
Definition holds_function_response (e : Entry) : bool :=
  match e with
  | dict_turn _ ps =>
      existsb (fun p => match p with
                        | function_response _ _ => true
                        | text_part _ => false
                        end) ps
  | content_obj _ => false
  end.

(** The scripts. *)
Definition unknown_tool_script : list (Outcome Response) :=
  [ Ok (answer [calls "does_not_exist" []]);
    Ok (answer [says "I have no such tool."]) ].

Definition missing_file_script : list (Outcome Response) :=
  [ Ok (answer [calls "read_file" [("file_path", VStr "missing.txt")]]);
    Ok (answer [says "The file does not exist."]) ].

Definition two_listings_script : list (Outcome Response) :=
  [ Ok (answer [calls "list_dir" [("directory_path", VStr ".")];
                calls "list_dir" [("directory_path", VStr ".")]]);
    Ok (answer [says "a.txt, b.txt"]) ].

Definition write_without_contents_script : list (Outcome Response) :=
  [ Ok (answer [calls "write_file" [("file_path", VStr "/tmp/x")]]);
    Ok (answer [says "Could not write."]) ].

Definition text_then_call_script : list (Outcome Response) :=
  [ Ok (answer [says "Let me look."; calls "list_dir" [("directory_path", VStr ".")]]);
    Ok (answer [says "a.txt, b.txt"]) ].

Definition listing_script : list (Outcome Response) :=
  [ Ok (answer [calls "list_dir" [("directory_path", VStr ".")]]);
    Ok (answer [says "a.txt, b.txt"]) ].

Definition second_round_script : list (Outcome Response) :=
  [ Ok (answer [calls "list_dir" [("directory_path", VStr ".")]]);
    Ok (answer [calls "read_file" [("file_path", VStr "a.txt")]]) ].

Definition berlin_script : list (Outcome Response) :=
  [ Ok (answer [says "Berlin"]) ].

Definition outage_script : list (Outcome Response) :=
  [ Ok (answer [calls "list_dir" [("directory_path", VStr ".")]]);
    Raise (PyExn "ServerError" "503 UNAVAILABLE") ].

End Scenario.

(** The runs of the scenarios. *)

Import Scenario.

Definition unknown_tool_run :=
  Scenario.run "Use does_not_exist." unknown_tool_script.

Definition missing_file_run :=
  Scenario.run "Show me missing.txt." missing_file_script.

Definition two_listings_run :=
  Scenario.run "List the directory twice." two_listings_script.

Definition write_without_contents_run :=
  Scenario.run "Write /tmp/x." write_without_contents_script.

Definition text_then_call_run :=
  Scenario.run "Which files are here?" text_then_call_script.

Definition second_round_run :=
  Scenario.run "Which files are here?" second_round_script.

Definition berlin_run := Scenario.run "Germany's capital?" berlin_script.

Definition listing_run := Scenario.run "Which files are here?" listing_script.

Definition outage_run := Scenario.run "Which files are here?" outage_script.

(** Lines 13-23: two calls on a fresh agent. *)
Definition cities_session (script : list (Outcome Response))
  : GeminiTest.Machine (B := list (Outcome Response)) :=
  {| GeminiTest.self := GeminiTest.init "gemini-2.5-flash" script;
     GeminiTest.log := [] |}.

Definition cities_script : list (Outcome Response) :=
  [ Ok (answer [says "Berlin, Munich, Cologne"]);
    Ok (answer [says "Munich is the capital of Bavaria."]) ].

Definition cities_run :=
  GeminiTest.run_all scripted
    ["你好,德国最值得游览的前 3 个城市是什么?只返回城市名称。";
     "告诉我关于第二个城市的一些事情。"]
    (cities_session cities_script).

(** A response whose content has no parts. *)
Definition empty_answer : Response :=
  {| candidates := Some [ {| content := Some {| role := Some "model"; parts := None |} |} ] |}.

Definition empty_answer_run :=
  Scenario.run "Say nothing." [Ok empty_answer].

(** A chat of one question, ended in capitals, with a line left over. *)
Definition chat_lines : list string :=
  ["Which files are here?"; "EXIT"; "never read"].

(** A tool-less session whose backend is down once. *)
Definition outage_then_answer : list (Outcome Response) :=
  [ Raise (PyExn "ServerError" "503 UNAVAILABLE");
    Ok (answer [says "Berlin, Munich, Cologne"]) ].

Definition failed_cities_run :=
  GeminiTest.run scripted "Which cities?" (cities_session outage_then_answer).

(** [list_models.py] with only [GOOGLE_API_KEY] set, [GEMINI_API_KEY] set
    but empty, and a listing that fails after two models. *)
Definition google_only : gmap string string :=
  {[ "GEMINI_API_KEY" := ""; "GOOGLE_API_KEY" := "g-key" ]}.

Definition two_models : list ListModels.Model :=
  [ {| ListModels.model_name := VStr "models/gemini-2.5-flash";
       ListModels.supported_generation_methods := None;
       ListModels.display_name := Some (VStr "Gemini 2.5 Flash") |};
    {| ListModels.model_name := VStr "models/gemini-2.5-pro";
       ListModels.supported_generation_methods := None;
       ListModels.display_name := Some VNone |} ].

Definition toy_new_client (key : string) : Outcome string := Ok key.

Definition toy_list_models (client : string)
  : list ListModels.Model * option Exn :=
  (two_models, Some (PyExn "ServerError" "503 UNAVAILABLE")).

Definition toy_is_Exception (e : Exn) : bool :=
  negb (bool_decide
          (exn_class e ∈ ["KeyboardInterrupt"; "SystemExit"; "GeneratorExit"])).

(** * Properties of [toolsAgent.py] *)

Module ToolsAgentProps.

Import ToolsAgent.

Section Props.

Context {B W : Type}.
Variable generate_content :
  B -> string -> list Entry -> option GenerateContentConfig -> Outcome Response * B.

Local Abbreviation PyFunction := (@ToolsAgent.PyFunction W).
Local Abbreviation ToolEntry := (@ToolsAgent.ToolEntry W).
Local Abbreviation Agent := (@ToolsAgent.Agent B W).
Local Abbreviation Machine := (@ToolsAgent.Machine B W).
Local Abbreviation dispatch := (ToolsAgent.dispatch generate_content).
Local Abbreviation second_dispatch := (ToolsAgent.second_dispatch generate_content).
Local Abbreviation after_first_dispatch :=
  (ToolsAgent.after_first_dispatch generate_content).
Local Abbreviation run := (ToolsAgent.run generate_content).
Local Abbreviation run_each := (ToolsAgent.run_each generate_content).
Local Abbreviation first_dispatch := (ToolsAgent.first_dispatch generate_content).
Local Abbreviation next_dispatch := (ToolsAgent.next_dispatch generate_content).
Local Abbreviation run_trace := (ToolsAgent.run_trace generate_content).

(** ** The tool loop *)

Lemma after_calls_nil (st : Machine) : after_calls st [] (world st) = st.
Proof.
  destruct st as [[m c h ts si] w l]. unfold after_calls, set_contents, history.
  simpl. by rewrite !app_nil_r.
Qed.

Lemma after_calls_cons (st : Machine) (ev : Event) (invs : list Event) (w1 w' : W) :
  after_calls (after_calls st [ev] w1) invs w' = after_calls st (ev :: invs) w'.
Proof.
  unfold after_calls, set_contents, history. simpl.
  destruct (result_turn ev); simpl; rewrite <- ?app_assoc; simpl;
    by rewrite ?app_nil_r.
Qed.

(** One pass through the loop body, case by case. *)
Lemma run_function_call_skip (fc : FunctionCall) (st : Machine) :
  lookup_tool (tools (self st)) (name fc) = None ->
  run_function_call fc st = (Ok tt, st).
Proof. intros H. unfold run_function_call. by rewrite H. Qed.

Lemma run_function_call_unbound (fc : FunctionCall) (st : Machine) n t e :
  lookup_tool (tools (self st)) (name fc) = Some (n, t) ->
  bound_args (function t) (args fc) = Raise e ->
  run_function_call fc st = (Raise e, st).
Proof.
  intros H Hb. unfold run_function_call, bind, call_kwargs. rewrite H.
  unfold bound_args in Hb. destruct (args fc) as [kw|]; [|congruence].
  destruct (bind_kwargs _ kw); congruence.
Qed.

Lemma run_function_call_fault (fc : FunctionCall) (st : Machine) n t kwargs vs e w' :
  lookup_tool (tools (self st)) (name fc) = Some (n, t) ->
  bound_args (function t) (args fc) = Ok (kwargs, vs) ->
  body (function t) vs (world st) = (Raise e, w') ->
  run_function_call fc st = (Raise e, after_calls st [EvInvoke n kwargs (Raise e)] w').
Proof.
  intros H Hb Hbody. unfold run_function_call, bind, call_kwargs. rewrite H.
  unfold bound_args in Hb. destruct (args fc) as [kw|]; [|congruence].
  destruct (bind_kwargs _ kw) as [vs'|]; [|congruence].
  injection Hb as -> ->. rewrite Hbody.
  destruct st as [[m c h ts si] w l]. unfold after_calls, set_contents, history.
  simpl. by rewrite app_nil_r.
Qed.

Lemma run_function_call_return (fc : FunctionCall) (st : Machine) n t kwargs vs v w' :
  lookup_tool (tools (self st)) (name fc) = Some (n, t) ->
  bound_args (function t) (args fc) = Ok (kwargs, vs) ->
  body (function t) vs (world st) = (Ok v, w') ->
  run_function_call fc st = (Ok tt, after_calls st [EvInvoke n kwargs (Ok v)] w').
Proof.
  intros H Hb Hbody. unfold run_function_call, bind, call_kwargs. rewrite H.
  unfold bound_args in Hb. destruct (args fc) as [kw|]; [|congruence].
  destruct (bind_kwargs _ kw) as [vs'|]; [|congruence].
  injection Hb as -> ->. by rewrite Hbody.
Qed.

(** The loop of the code runs as [loop] says. *)
Lemma for_each_loop (fcs : list FunctionCall) :
  forall (st : Machine) (o : Outcome unit) (st' : Machine),
    for_each run_function_call fcs st = (o, st') ->
    exists invs,
      loop (tools (self st)) fcs (world st) invs o (world st')
      /\ st' = after_calls st invs (world st').
Proof.
  induction fcs as [|fc fcs IH]; intros st o st' Hrun.
  - injection Hrun as <- <-. exists []. split; [constructor|].
    by rewrite after_calls_nil.
  - cbn [for_each] in Hrun. unfold bind in Hrun.
    destruct (lookup_tool (tools (self st)) (name fc)) as [[n t]|] eqn:Hl.
    + destruct (bound_args (function t) (args fc)) as [[kwargs vs]|e] eqn:Hb.
      * destruct (body (function t) vs (world st)) as [[v|e] w1] eqn:Hbody.
        -- rewrite (run_function_call_return _ _ _ _ _ _ _ _ Hl Hb Hbody) in Hrun.
           apply IH in Hrun as (invs & Hloop & ->).
           exists (EvInvoke n kwargs (Ok v) :: invs). split.
           ++ eapply loop_return; eauto.
           ++ by rewrite after_calls_cons.
        -- rewrite (run_function_call_fault _ _ _ _ _ _ _ _ Hl Hb Hbody) in Hrun.
           injection Hrun as <- <-. exists [EvInvoke n kwargs (Raise e)].
           split; [|done]. eapply loop_fault; eauto.
      * rewrite (run_function_call_unbound _ _ _ _ _ Hl Hb) in Hrun.
        injection Hrun as <- <-. exists []. split.
        -- eapply loop_unbound; eauto.
        -- by rewrite after_calls_nil.
    + rewrite (run_function_call_skip _ _ Hl) in Hrun.
      apply IH in Hrun as (invs & Hloop & ->).
      exists invs. split; [|done]. by apply loop_skip.
Qed.

(** ** The paths through [run] *)

(** The machine after the second dispatch, whatever it answered. *)
Lemma second_dispatch_from (st : Machine) c1 h w evs :
  second_dispatch (make_config (self st)) (reach st c1 h w evs) =
  match next_dispatch st c1 h with
  | (Raise e, c2) =>
      (Raise e, reach st c2 h w (evs ++ [dispatch_event st h (Raise e)]))
  | (Ok r2, c2) =>
      match index0 (candidates r2) with
      | Raise e =>
          (Raise e, reach st c2 h w (evs ++ [dispatch_event st h (Ok r2)]))
      | Ok cand2 =>
          (Ok r2, reach st c2 (h ++ [content_obj (content cand2)]) w
                    (evs ++ [dispatch_event st h (Ok r2)]))
      end
  end.
Proof.
  unfold second_dispatch, bind, dispatch, lift, append, ret, next_dispatch,
    reach, dispatch_event, set_client, set_contents. simpl.
  destruct (generate_content c1 _ h _) as [[r2|e] c2]; simpl;
    [destruct (index0 (candidates r2)); simpl|]; by rewrite <- ?app_assoc.
Qed.

(** Every call of [run] follows one of the eight paths. *)
Lemma run_run_trace (user_text : string) (st : Machine) out st' :
  run user_text st = (out, st') -> run_trace user_text st out st'.
Proof.
  unfold run. unfold bind at 1. unfold append at 1. cbv beta iota.
  set (st0 := {| self := set_contents (contents (self st) ++ [_]) (self st);
                 world := world st; log := log st |}).
  assert (Hcfg : make_config (self st0) = make_config (self st)) by done.
  rewrite Hcfg. unfold bind at 1. unfold dispatch. cbv zeta.
  change (generate_content (client (self st0)) (model (self st0))
            (contents (self st0)) (Some (make_config (self st))))
    with (first_dispatch st user_text).
  destruct (first_dispatch st user_text) as [[r|e] c1] eqn:Hd1.
  2:{ intros [= <- <-]. by apply trace_first_fault. }
  set (st1 := {| self := set_client c1 (self st0); world := world st0; log := _ |}).
  assert (Hst1 : st1 = reach st c1 (first_history st user_text) (world st)
                   [dispatch_event st (first_history st user_text) (Ok r)]) by done.
  unfold bind at 1. unfold lift at 1.
  destruct (index0 (candidates r)) as [cand|e] eqn:Hc.
  2:{ intros [= <- <-]. rewrite Hst1. by eapply trace_no_candidate. }
  unfold bind at 1. unfold append at 1. cbv beta iota.
  set (st2 := {| self := set_contents (contents (self st1) ++ [_]) (self st1);
                 world := world st1; log := log st1 |}).
  assert (Hst2 : st2 = reach st c1
                   (first_history st user_text ++ [content_obj (content cand)])
                   (world st)
                   [dispatch_event st (first_history st user_text) (Ok r)]) by done.
  unfold bind at 1. unfold lift at 1.
  destruct (content cand) as [ct|] eqn:Hct; cbn [get_parts].
  2:{ intros [= <- <-]. rewrite Hst2. by eapply trace_no_content. }
  unfold after_first_dispatch.
  destruct (has_function_call (parts ct)) eqn:Hfc.
  2:{ intros [= <- <-]. rewrite Hst2. by eapply trace_final. }
  unfold bind at 1.
  destruct (for_each run_function_call _ st2) as [[[]|e] st3] eqn:Hloop;
    apply for_each_loop in Hloop as (invs & Hloop & Hst3);
    change (tools (self st2)) with (tools (self st)) in Hloop;
    change (world st2) with (world st) in Hloop.
  - assert (Hst3' : st3 = reach st c1
              (first_history st user_text ++ content_obj (Some ct) :: omap result_turn invs)
              (world st3)
              (dispatch_event st (first_history st user_text) (Ok r) :: invs)).
    { rewrite Hst3 at 1. rewrite Hst2. unfold after_calls, reach, history,
        set_contents, set_client. simpl. by rewrite <- !app_assoc. }
    rewrite Hst3'. rewrite second_dispatch_from.
    destruct (next_dispatch st c1 _) as [[r2|e] c2] eqn:Hd2.
    + destruct (index0 (candidates r2)) as [cand2|e] eqn:Hc2;
        intros [= <- <-]; rewrite app_comm_cons.
      * by eapply trace_answer.
      * by eapply trace_second_no_candidate.
    + intros [= <- <-]. rewrite app_comm_cons. by eapply trace_second_fault.
  - intros [= <- <-]. rewrite Hst3 at 1. rewrite Hst2.
    assert (Heq : after_calls
              (reach st c1 (first_history st user_text ++ [content_obj (Some ct)])
                 (world st) [dispatch_event st (first_history st user_text) (Ok r)])
              invs (world st3) =
            reach st c1
              (first_history st user_text ++ content_obj (Some ct) :: omap result_turn invs)
              (world st3)
              (dispatch_event st (first_history st user_text) (Ok r) :: invs)).
    { unfold after_calls, reach, history, set_contents, set_client. simpl.
      by rewrite <- !app_assoc. }
    rewrite Heq. by eapply trace_tool_fault.
Qed.

(** ** What the loop's log says *)

Lemma lookup_tool_name (ts : list (string * ToolEntry)) (fname : option string) n t :
  lookup_tool ts fname = Some (n, t) ->
  fname = Some n /\ dict_get ts n = Some t.
Proof.
  unfold lookup_tool. destruct fname as [m|]; [|done].
  destruct (dict_get ts m) eqn:E; [|done]. by intros [= <- <-].
Qed.

Lemma loop_invokes (ts : list (string * ToolEntry)) fcs w invs o w' :
  loop ts fcs w invs o w' -> Forall (fun ev => is_invoke ev = true) invs.
Proof. induction 1; auto. Qed.

Lemma dispatch_count_invokes (invs : list Event) :
  Forall (fun ev => is_invoke ev = true) invs -> dispatch_count invs = 0.
Proof.
  unfold dispatch_count. induction 1 as [|ev invs Hev _ IH]; [done|].
  destruct ev; [done|]. by rewrite filter_cons_False.
Qed.

Lemma dispatch_count_app (l1 l2 : list Event) :
  dispatch_count (l1 ++ l2) = dispatch_count l1 + dispatch_count l2.
Proof. unfold dispatch_count. by rewrite filter_app, length_app. Qed.

(** A body that raised ended the loop: its event is the last one, and its
    exception is the loop's. *)
Lemma loop_fault_last (ts : list (string * ToolEntry)) fcs w invs o w' :
  loop ts fcs w invs o w' ->
  forall n kwargs e,
    In (EvInvoke n kwargs (Raise e)) invs ->
    o = Raise e /\ exists pre, invs = pre ++ [EvInvoke n kwargs (Raise e)].
Proof.
  induction 1 as [| | |fc fcs w n t kw vs e w' Hl Hb Hbody
                   |fc fcs w n t kw vs v w1 invs o w' Hl Hb Hbody Hloop IH];
    intros n' kw' e' Hin; try done.
  - by apply IHloop.
  - destruct Hin as [[= -> -> ->]|[]]. split; [done|]. by exists [].
  - destruct Hin as [[=]|Hin]. destruct (IH _ _ _ Hin) as [-> [pre ->]].
    split; [done|]. by exists (EvInvoke n kw (Ok v) :: pre).
Qed.

(** A loop that came to its end entered, in order, the function of every
    registered call, and each returned. *)
Lemma loop_ok_answered (ts : list (string * ToolEntry)) fcs w invs w' :
  loop ts fcs w invs (Ok tt) w' ->
  Forall2 (answered ts) (filter (registered ts) fcs) invs.
Proof.
  remember (Ok tt) as o eqn:Ho.
  induction 1 as [| fc fcs w invs o w' Hl Hloop IH | |
                   |fc fcs w n t kw vs v w1 invs o w' Hl Hb Hbody Hloop IH];
    try done.
  - rewrite filter_cons_False; [by apply IH|].
    unfold registered. rewrite Hl. by intros [? ?].
  - rewrite filter_cons_True; [|unfold registered; by rewrite Hl].
    constructor; [|by apply IH]. by exists n, t, kw, vs, v.
Qed.

(** The turns appended for answered calls are one result turn per call,
    under the call's name. *)
Lemma answered_result_turns (ts : list (string * ToolEntry))
    (fcs : list FunctionCall) (invs : list Event) :
  Forall2 (answered ts) fcs invs ->
  Forall2 result_for fcs (omap result_turn invs).
Proof.
  induction 1 as [|fc ev fcs invs (n & t & kw & vs & v & Hl & _ & ->) _ IH];
    [constructor|].
  cbn. constructor; [|done]. exists n, v. split; [|done].
  by apply lookup_tool_name in Hl as [-> _].
Qed.

(** The loop is a function of the tools, the calls and the world. *)
Lemma loop_deterministic (ts : list (string * ToolEntry)) fcs w invs o w' :
  loop ts fcs w invs o w' ->
  forall invs2 o2 w2,
    loop ts fcs w invs2 o2 w2 -> invs2 = invs /\ o2 = o /\ w2 = w'.
Proof.
  induction 1 as [| fc fcs w invs o w' Hl Hloop IH | |
                   |fc fcs w n t kw vs v w1 invs o w' Hl Hb Hbody Hloop IH];
    intros invs2 o2 w2 Hsnd; inversion Hsnd; subst; same_lhs; auto.
  match goal with
  | H : loop _ _ _ _ _ _ |- _ => destruct (IH _ _ _ H) as (-> & -> & ->)
  end. done.
Qed.

(** What it is for a call to name a registered tool: its name is a string
    and a key of the tools dictionary. *)
Lemma registered_iff (ts : list (string * ToolEntry)) (fc : FunctionCall) :
  registered ts fc <-> exists n, name fc = Some n /\ In n (map fst ts).
Proof.
  unfold registered, lookup_tool. destruct (name fc) as [n|].
  - assert (Hget : is_Some (dict_get ts n) <-> In n (map fst ts)).
    { induction ts as [|[k t] ts IH]; cbn [dict_get map fst In].
      - split; [by intros [? ?]|done].
      - destruct (String.eqb_spec k n) as [->|Hne].
        + split; [by left|by eexists].
        + rewrite IH. split; [by right|]. by intros [?|?]. }
    split.
    + intros Hs. exists n. split; [done|]. apply Hget.
      destruct (dict_get ts n); [by eexists|by destruct Hs].
    + intros (m & [= <-] & Hin). apply Hget in Hin as [t Ht]. rewrite Ht.
      by eexists.
  - split; [by intros [? ?]|]. by intros (m & ? & _).
Qed.

(** The requests the loop goes through are those of the parts, in the
    order of the parts. *)
Lemma function_calls_parts (ct : Content) (ps : list Part) :
  parts ct = Some ps ->
  function_calls (default [] (parts ct)) = omap function_call ps.
Proof. by intros ->. Qed.

(** A loop that a fault left: the calls before the faulting one were gone
    through in order, the registered ones entered and returned; the faulting
    call names a registered tool, and either its arguments did not bind (no
    body entered) or its body raised (the last event). *)
Lemma loop_fault_prefix (ts : list (string * ToolEntry)) fcs w invs e w' :
  loop ts fcs w invs (Raise e) w' ->
  exists before fc rest oks,
    fcs = before ++ fc :: rest
    /\ registered ts fc
    /\ Forall2 (answered ts) (filter (registered ts) before) oks
    /\ (invs = oks
        \/ exists n kwargs, invs = oks ++ [EvInvoke n kwargs (Raise e)]).
Proof.
  remember (Raise e) as o eqn:Ho.
  induction 1 as [| fc fcs w invs o w' Hl Hloop IH
                   | fc fcs w n t e0 Hl Hb
                   | fc fcs w n t kw vs e0 w' Hl Hb Hbody
                   | fc fcs w n t kw vs v w1 invs o w' Hl Hb Hbody Hloop IH];
    try done.
  - destruct (IH Ho) as (before & fc' & rest & oks & -> & Hreg & Hoks & Hinvs).
    exists (fc :: before), fc', rest, oks. split; [done|]. split; [done|].
    split; [|done]. rewrite filter_cons_False; [done|].
    unfold registered. rewrite Hl. by intros [? ?].
  - exists [], fc, fcs, []. split; [done|].
    split; [unfold registered; by rewrite Hl|]. split; [constructor|by left].
  - injection Ho as ->. exists [], fc, fcs, []. split; [done|].
    split; [unfold registered; by rewrite Hl|]. split; [constructor|].
    right. by exists n, kw.
  - destruct (IH Ho) as (before & fc' & rest & oks & -> & Hreg & Hoks & Hinvs).
    exists (fc :: before), fc', rest, (EvInvoke n kw (Ok v) :: oks).
    split; [done|]. split; [done|]. split.
    + rewrite filter_cons_True; [|unfold registered; by rewrite Hl].
      constructor; [|done]. by exists n, t, kw, vs, v.
    + destruct Hinvs as [->|(n' & kw' & ->)]; [by left|]. right. by exists n', kw'.
Qed.

(** ** Properties of [run] *)

(** From a call of [run] to the path it took. *)
Ltac run_paths H :=
  apply run_run_trace in H; inversion H; subst; clear H.

Lemma invoke_not_dispatch (invs : list Event) m h cfg res :
  Forall (fun ev => is_invoke ev = true) invs ->
  ~ In (EvDispatch m h cfg res) invs.
Proof.
  intros Hall Hin. rewrite Forall_forall in Hall.
  apply list_elem_of_In, Hall in Hin. done.
Qed.

(** [run] only appends to the history, and first of all the user's turn. *)
Lemma run_extends_history (user_text : string) (st : Machine) out st' :
  run user_text st = (out, st') ->
  exists new, history st' = history st ++ user_turn user_text :: new.
Proof.
  intros Hrun. run_paths Hrun; unfold reach, history, first_history; cbn;
    rewrite <- ?app_assoc; cbn; eauto.
Qed.

(** C6. A call of [run] makes one round of tool execution at most: its log
    is the first dispatch, then the tool bodies it entered, then at most one
    more dispatch, after which nothing is logged.  The response of that
    second dispatch is returned as it is, and its content appended as it is,
    whatever its parts are: tool-call segments in it are not executed.  So
    no call dispatches more than twice. *)
Theorem at_most_one_tool_round (user_text : string) (st : Machine) out st' :
  run user_text st = (out, st') ->
  exists d1 invs tail,
    log st' = log st ++ d1 :: invs ++ tail
    /\ is_dispatch d1 = true
    /\ Forall (fun ev => is_invoke ev = true) invs
    /\ dispatch_count (d1 :: invs ++ tail) <= 2
    /\ (tail = [] \/
        exists h2 res2,
          tail = [dispatch_event st h2 res2]
          /\ forall r2 cand2,
               res2 = Ok r2 -> index0 (candidates r2) = Ok cand2 ->
               out = Ok r2 /\ history st' = h2 ++ [content_obj (content cand2)]).
Proof.
  intros Hrun.
  assert (Hcount : forall d1 invs tail,
             is_dispatch d1 = true ->
             Forall (fun ev => is_invoke ev = true) invs ->
             length tail <= 1 ->
             dispatch_count (d1 :: invs ++ tail) <= 2).
  { intros d1 invs tail Hd Hinv Hlen.
    change (d1 :: invs ++ tail) with ([d1] ++ invs ++ tail).
    rewrite !dispatch_count_app, (dispatch_count_invokes invs Hinv).
    assert (dispatch_count [d1] <= 1 /\ dispatch_count tail <= length tail)
      as [? ?]; [|lia].
    unfold dispatch_count. split; [|apply length_filter].
    etrans; [apply length_filter|done]. }
  run_paths Hrun;
    try match goal with
        | Hloop : loop _ _ _ _ _ _ |- _ => pose proof (loop_invokes _ _ _ _ _ _ Hloop)
        end.
  1-4: eexists _, [], []; split; [reflexivity|]; split; [reflexivity|];
    split; [constructor|]; split; [apply Hcount; by auto|]; by left.
  - eexists _, invs, []. rewrite app_nil_r.
    split; [reflexivity|]; split; [reflexivity|]; split; [done|].
    split; [|by left]. rewrite <- (app_nil_r invs). apply Hcount; by auto.
  - eexists _, invs, [_].
    split; [reflexivity|]; split; [reflexivity|]; split; [done|].
    split; [apply Hcount; by auto|]. right. do 2 eexists.
    split; [done|]. by intros r2 cand2 [=].
  - eexists _, invs, [_].
    split; [reflexivity|]; split; [reflexivity|]; split; [done|].
    split; [apply Hcount; by auto|]. right. do 2 eexists.
    split; [done|]. intros r0 cand2 [= <-]. congruence.
  - eexists _, invs, [_].
    split; [reflexivity|]; split; [reflexivity|]; split; [done|].
    split; [apply Hcount; by auto|]. right. do 2 eexists.
    split; [done|]. intros r0 cand0 [= <-] Hc.
    assert (cand0 = cand2) as -> by congruence. done.
Qed.

(** C9. A faulting dispatch ends the call with that fault: it is the last
    thing the call did (it is not caught, and not tried again), and the
    history is left exactly as it was sent to that dispatch, with the user's
    turn and, for the second dispatch, the model's turn and the tool results
    after it.  Nothing is rolled back. *)
Theorem dispatch_fault_propagates (user_text : string) (st : Machine) out st'
    (evs : list Event) m h cfg e :
  run user_text st = (out, st') ->
  log st' = log st ++ evs ->
  In (EvDispatch m h cfg (Raise e)) evs ->
  out = Raise e
  /\ history st' = h
  /\ ((h = history st ++ [user_turn user_text]
       /\ evs = [EvDispatch m h cfg (Raise e)])
      \/ (exists r ct invs,
            h = history st ++ user_turn user_text
                  :: content_obj (Some ct) :: omap result_turn invs
            /\ Forall (fun ev => is_invoke ev = true) invs
            /\ evs = dispatch_event st (history st ++ [user_turn user_text]) (Ok r)
                     :: invs ++ [EvDispatch m h cfg (Raise e)])).
Proof.
  intros Hrun Hlog Hin.
  run_paths Hrun; cbn [reach log] in Hlog; apply app_inv_head in Hlog; subst evs;
    try match goal with
        | Hloop : loop _ _ _ _ _ _ |- _ => pose proof (loop_invokes _ _ _ _ _ _ Hloop)
        end;
    unfold dispatch_event in Hin;
    repeat match goal with
           | H : In _ (_ :: _) |- _ => destruct H as [H|H]
           | H : In _ (_ ++ _) |- _ => apply in_app_or in H as [H|H]
           | H : In _ [] |- _ => destruct H
           | H : In (EvDispatch _ _ _ _) ?l, F : Forall _ ?l |- _ =>
               by destruct (invoke_not_dispatch _ _ _ _ _ F H)
           | H : EvDispatch _ _ _ _ = EvDispatch _ _ _ _ |- _ =>
               injection H as <- <- <- ?; simplify_eq
           end.
  - split; [done|]. split; [done|]. by left.
  - split; [done|]. split; [done|]. right. exists r, ct, invs.
    unfold first_history. rewrite <- app_assoc. by repeat split.
Qed.

Lemma dispatch_count_first (st : Machine) h res (invs : list Event) :
  Forall (fun ev => is_invoke ev = true) invs ->
  dispatch_count (dispatch_event st h res :: invs) = 1.
Proof.
  intros Hinv. change (dispatch_event st h res :: invs)
    with ([dispatch_event st h res] ++ invs).
  by rewrite dispatch_count_app, (dispatch_count_invokes invs Hinv).
Qed.

Lemma dispatch_count_both (st : Machine) h res h2 res2 (invs : list Event) :
  Forall (fun ev => is_invoke ev = true) invs ->
  dispatch_count (dispatch_event st h res :: invs ++ [dispatch_event st h2 res2]) = 2.
Proof.
  intros Hinv. rewrite app_comm_cons, dispatch_count_app.
  by rewrite dispatch_count_first.
Qed.

Lemma omap_result_turn_first (st : Machine) h res (invs : list Event) :
  omap result_turn (dispatch_event st h res :: invs) = omap result_turn invs.
Proof. done. Qed.

(** C1, as the code has it.  A tool-call request whose name is no key of
    the tools dictionary is passed over: the loop body returns without a
    fault and leaves the machine as it was (nothing is appended to the
    history, no function is entered), and the loop goes on with the next
    request. *)
Theorem unknown_tool_is_skipped (fc : FunctionCall) (st : Machine) :
  (forall n, name fc = Some n -> dict_get (tools (self st)) n = None) ->
  run_function_call fc st = (Ok tt, st)
  /\ forall rest,
       for_each run_function_call (fc :: rest) st
       = for_each run_function_call rest st.
Proof.
  intros Hunknown.
  assert (Hl : lookup_tool (tools (self st)) (name fc) = None).
  { unfold lookup_tool. destruct (name fc) as [n|]; [|done].
    by rewrite (Hunknown n eq_refl). }
  split; [by apply run_function_call_skip|].
  intros rest. cbn [for_each]. unfold bind.
  by rewrite (run_function_call_skip _ _ Hl).
Qed.

(** C2, as the code has it.  A tool body that raises ends the call of
    [run] with its exception: the body's event is the last of the call, so
    no later request is executed and the second dispatch does not take
    place (the call dispatched once), and the turns appended after the
    model's turn are the results of the bodies that returned: the raising
    call gets none. *)
Theorem tool_fault_propagates (user_text : string) (st : Machine) out st'
    (evs : list Event) n kwargs e :
  run user_text st = (out, st') ->
  log st' = log st ++ evs ->
  In (EvInvoke n kwargs (Raise e)) evs ->
  out = Raise e
  /\ (exists before, evs = before ++ [EvInvoke n kwargs (Raise e)])
  /\ dispatch_count evs = 1
  /\ exists ct,
       history st' = history st ++ user_turn user_text
                       :: content_obj (Some ct) :: omap result_turn evs.
Proof.
  intros Hrun Hlog Hin.
  run_paths Hrun; cbn [reach log] in Hlog; apply app_inv_head in Hlog; subst evs;
    try match goal with
        | Hloop : loop _ _ _ _ _ _ |- _ =>
            pose proof (loop_invokes _ _ _ _ _ _ Hloop);
            pose proof (loop_fault_last _ _ _ _ _ _ Hloop n kwargs e) as Hlast
        end;
    unfold dispatch_event in Hin;
    repeat match goal with
           | H : In _ (_ :: _) |- _ => destruct H as [H|H]
           | H : In _ (_ ++ _) |- _ => apply in_app_or in H as [H|H]
           | H : In _ [] |- _ => destruct H
           | H : EvDispatch _ _ _ _ = EvInvoke _ _ _ |- _ => discriminate H
           | H : In _ ?l, L : In _ ?l -> _ |- _ => destruct (L H) as [? [pre ->]]
           end;
    simplify_eq.
  all: split; [done|]; split; [by eexists (_ :: pre)|];
    split; [by apply dispatch_count_first|];
    exists ct; unfold reach, history, first_history; cbn;
    by rewrite <- app_assoc.
Qed.

(** C3, as the code has it.  Whenever the second dispatch is issued, the
    first response's content has parts, and the history the second dispatch
    is sent is the history before the call, the user's turn, the model's
    turn, and then one separate user-role turn per tool-call request of
    those parts that names a registered tool (a key of the tools
    dictionary), each holding that one function response under the
    request's name, in the order in which the parts hold the requests: as
    many turns as requests when every request names a registered tool. *)
Theorem one_result_turn_per_call (user_text : string) (st : Machine) out st'
    (evs : list Event) :
  run user_text st = (out, st') ->
  log st' = log st ++ evs ->
  dispatch_count evs = 2 ->
  exists r c1 cand ct ps invs turns res2,
    first_dispatch st user_text = (Ok r, c1)
    /\ index0 (candidates r) = Ok cand
    /\ content cand = Some ct
    /\ parts ct = Some ps
    /\ evs = dispatch_event st (history st ++ [user_turn user_text]) (Ok r)
             :: invs
             ++ [dispatch_event st
                   (history st ++ user_turn user_text
                      :: content_obj (Some ct) :: turns) res2]
    /\ Forall (fun ev => is_invoke ev = true) invs
    /\ Forall2 result_for
         (filter (registered (tools (self st))) (omap function_call ps))
         turns
    /\ (Forall (registered (tools (self st))) (omap function_call ps) ->
        length turns = length (omap function_call ps))
    /\ (forall fc,
          registered (tools (self st)) fc <->
          exists n, name fc = Some n /\ In n (map fst (tools (self st)))).
Proof.
  intros Hrun Hlog Hcount.
  assert (Hall : forall (ts : list (string * ToolEntry)) fcs (turns : list Entry),
             Forall2 result_for (filter (registered ts) fcs) turns ->
             Forall (registered ts) fcs -> length turns = length fcs).
  { intros ts fcs turns HF Hreg. apply Forall2_length in HF. rewrite <- HF.
    f_equal. clear HF. induction Hreg as [|fc fcs Hfc _ IH]; [done|].
    rewrite filter_cons_True by done. by f_equal. }
  run_paths Hrun; cbn [reach log] in Hlog; apply app_inv_head in Hlog; subst evs;
    try match goal with
        | Hloop : loop _ _ _ _ _ _ |- _ =>
            pose proof (loop_invokes _ _ _ _ _ _ Hloop)
        end;
    try (rewrite dispatch_count_first in Hcount by auto; discriminate Hcount);
    try (change (dispatch_count [dispatch_event st (first_history st user_text) (Raise e)])
           with 1 in Hcount; discriminate Hcount);
    match goal with
    | Hfc : has_function_call (parts ?c) = true |- _ =>
        destruct (parts c) as [ps|] eqn:Hps; [|discriminate Hfc]
    end;
    match goal with
    | Hloop : loop _ _ _ _ (Ok tt) _ |- _ =>
        change (function_calls (default [] (Some ps)))
          with (omap function_call ps) in Hloop;
        pose proof (answered_result_turns _ _ _ (loop_ok_answered _ _ _ _ _ Hloop))
          as Hturns
    end;
    exists r, c1, cand, ct, ps, invs, (omap result_turn invs); eexists;
    unfold first_history; rewrite <- app_assoc;
    (do 7 (split; [done|])); (split; [by apply Hall|]);
    intros fc; apply registered_iff.
Qed.

(** ** [run] after an answered first dispatch *)

Lemma for_each_app {A : Type} (f : A -> M Machine unit) (xs ys : list A)
    (st : Machine) :
  for_each f (xs ++ ys) st
  = match for_each f xs st with
    | (Ok _, st') => for_each f ys st'
    | (Raise e, st') => (Raise e, st')
    end.
Proof.
  revert st. induction xs as [|x xs IH]; intros st; [done|].
  cbn [app for_each]. unfold bind.
  destruct (f x st) as [[[]|e] st1]; [apply IH|done].
Qed.

Lemma for_each_tools (fcs : list FunctionCall) (st : Machine) o st' :
  for_each run_function_call fcs st = (o, st') ->
  tools (self st') = tools (self st).
Proof. intros (invs & _ & ->)%for_each_loop. done. Qed.

(** Lines 234-305 are run on the machine that holds the user's turn and
    the model's turn. *)
Lemma run_after_first (user_text : string) (st : Machine) r c1 cand ct :
  first_dispatch st user_text = (Ok r, c1) ->
  index0 (candidates r) = Ok cand ->
  content cand = Some ct ->
  run user_text st
  = after_first_dispatch (make_config (self st)) r (parts ct)
      (reach st c1
         (history st ++ [user_turn user_text; content_obj (Some ct)])
         (world st)
         [dispatch_event st (history st ++ [user_turn user_text]) (Ok r)]).
Proof.
  intros Hd Hc Hct. unfold run, first_dispatch, first_history, history in *.
  unfold bind at 1. unfold append at 1. cbv beta iota.
  unfold bind at 1. unfold dispatch. cbn [self set_contents contents client model].
  change (make_config _) with (make_config (self st)). rewrite Hd.
  unfold bind at 1. unfold lift at 1. rewrite Hc.
  unfold bind at 1. unfold append at 1. cbv beta iota.
  unfold bind at 1. unfold lift at 1. rewrite Hct. cbn [get_parts].
  unfold reach, dispatch_event, history, set_client, set_contents. cbn.
  by rewrite <- app_assoc.
Qed.

(** ** Keyword binding *)

Lemma bind_kwargs_extra (ps : list string) (kwargs : gmap string Value) k :
  k ∉ ps -> is_Some (kwargs !! k) ->
  exists msg, bind_kwargs ps kwargs = Raise (TypeError msg).
Proof.
  intros Hk [v Hv]. unfold bind_kwargs.
  assert (Hin : k ∈ filter (fun k => k ∉ ps) (map fst (map_to_list kwargs))).
  { apply list_elem_of_filter. split; [done|].
    change (k ∈ fst <$> map_to_list kwargs).
    apply list_elem_of_fmap. exists (k, v). split; [done|].
    by apply elem_of_map_to_list. }
  destruct (filter _ _) as [|k' l]; [by apply elem_of_nil in Hin|eauto].
Qed.

Lemma bind_kwargs_missing (ps : list string) (kwargs : gmap string Value) p :
  p ∈ ps -> kwargs !! p = None ->
  exists msg, bind_kwargs ps kwargs = Raise (TypeError msg).
Proof.
  intros Hp Hnone. unfold bind_kwargs.
  destruct (filter _ _) as [|k' l]; [|eauto].
  destruct (mapM _ ps) as [vs|] eqn:Hm; [|eauto].
  apply mapM_Some in Hm.
  apply list_elem_of_lookup in Hp as [i Hi].
  destruct (Forall2_lookup_l _ _ _ _ _ Hm Hi) as (v & _ & Hv). congruence.
Qed.

Lemma bind_kwargs_exact (ps : list string) (kwargs : gmap string Value) :
  (forall k, is_Some (kwargs !! k) <-> k ∈ ps) ->
  exists vs, bind_kwargs ps kwargs = Ok vs
             /\ Forall2 (fun p v => kwargs !! p = Some v) ps vs.
Proof.
  intros Hdom. unfold bind_kwargs.
  assert (Hf : filter (fun k => k ∉ ps) (map fst (map_to_list kwargs)) = []).
  { destruct (filter _ _) as [|k l] eqn:E; [done|].
    assert (Hk : k ∈ filter (fun k => k ∉ ps) (map fst (map_to_list kwargs)))
      by (rewrite E; left).
    apply list_elem_of_filter in Hk as [Hnot Hk]. destruct Hnot. apply Hdom.
    change (k ∈ fst <$> map_to_list kwargs) in Hk.
    apply list_elem_of_fmap in Hk as ([k' v] & -> & Hkv).
    apply elem_of_map_to_list in Hkv. by exists v. }
  rewrite Hf.
  assert (Hs : is_Some (mapM (fun p => kwargs !! p) ps)).
  { apply mapM_is_Some, Forall_forall. intros p Hp. by apply Hdom. }
  destruct Hs as [vs Hvs]. rewrite Hvs. exists vs. split; [done|].
  by apply mapM_Some.
Qed.

(** A path of [run] that contradicts what is known of the dispatches. *)
Ltac run_equation :=
  let out := fresh "out" in
  let st' := fresh "st'" in
  let Hrun := fresh "Hrun" in
  match goal with
  | |- run ?t ?st = _ =>
      destruct (run t st) as [out st'] eqn:Hrun; run_paths Hrun; same_lhs
  end.

(** C4, as the code has it.  The arguments of a call to a registered tool
    are checked by name only, by Python's keyword binding.  A missing
    parameter or a key that is no parameter raises a [TypeError] before the
    function is entered: the machine is left as it was (no write to the
    world, no result appended), the fault leaves the loop, and [run] ends
    with it on the machine the earlier calls of the response left, without
    a second dispatch.  When the keys are exactly the parameters, the
    function is entered with the values as they are, whatever their
    types. *)
Theorem arguments_bound_by_name_only (ts : list (string * ToolEntry))
    (fc : FunctionCall) n t kwargs :
  lookup_tool ts (name fc) = Some (n, t) ->
  args fc = Some kwargs ->
  (((exists p, (p ∈ params (function t)) /\ kwargs !! p = None)
    \/ (exists k, (k ∉ params (function t)) /\ is_Some (kwargs !! k))) ->
   exists msg,
     (forall st : Machine, tools (self st) = ts ->
        run_function_call fc st = (Raise (TypeError msg), st))
     /\ (forall user_text (st : Machine) r c1 cand ct earlier later st3,
          tools (self st) = ts ->
          first_dispatch st user_text = (Ok r, c1) ->
          index0 (candidates r) = Ok cand ->
          content cand = Some ct ->
          has_function_call (parts ct) = true ->
          function_calls (default [] (parts ct)) = earlier ++ fc :: later ->
          for_each run_function_call earlier
            (reach st c1
               (history st ++ [user_turn user_text; content_obj (Some ct)])
               (world st)
               [dispatch_event st (history st ++ [user_turn user_text]) (Ok r)])
          = (Ok tt, st3) ->
          run user_text st = (Raise (TypeError msg), st3)))
  /\ ((forall k, is_Some (kwargs !! k) <-> k ∈ params (function t)) ->
      exists vs,
        Forall2 (fun p v => kwargs !! p = Some v) (params (function t)) vs
        /\ forall st : Machine, tools (self st) = ts ->
             run_function_call fc st
             = match body (function t) vs (world st) with
               | (Ok v, w') => (Ok tt, after_calls st [EvInvoke n kwargs (Ok v)] w')
               | (Raise e, w') =>
                   (Raise e, after_calls st [EvInvoke n kwargs (Raise e)] w')
               end).
Proof.
  intros Hl Hargs. split.
  - intros Hbad.
    assert (exists msg, bound_args (function t) (args fc) = Raise (TypeError msg))
      as [msg Hb].
    { rewrite Hargs. unfold bound_args.
      destruct Hbad as [(p & Hp & Hnone)|(k & Hk & Hsome)].
      - destruct (bind_kwargs_missing _ _ _ Hp Hnone) as [msg ->]. eauto.
      - destruct (bind_kwargs_extra _ _ _ Hk Hsome) as [msg ->]. eauto. }
    assert (Hcall : forall st : Machine, tools (self st) = ts ->
               run_function_call fc st = (Raise (TypeError msg), st)).
    { intros st <-. by eapply run_function_call_unbound. }
    exists msg. split; [exact Hcall|].
    intros user_text st r c1 cand ct earlier later st3 Hts Hd Hc Hct Hfc Hcalls Hpre.
    rewrite (run_after_first _ _ _ _ _ _ Hd Hc Hct).
    unfold after_first_dispatch. rewrite Hfc, Hcalls. unfold bind at 1.
    rewrite for_each_app, Hpre. cbn [for_each]. unfold bind at 1.
    rewrite Hcall; [done|]. by rewrite (for_each_tools _ _ _ _ Hpre).
  - intros Hdom. destruct (bind_kwargs_exact _ _ Hdom) as (vs & Hvs & Hall).
    exists vs. split; [done|]. intros st <-.
    assert (Hb : bound_args (function t) (args fc) = Ok (kwargs, vs)).
    { rewrite Hargs. unfold bound_args. by rewrite Hvs. }
    destruct (body (function t) vs (world st)) as [[v|e] w'] eqn:Hbody.
    + by eapply run_function_call_return.
    + by eapply run_function_call_fault.
Qed.

(** ** The decision after the first dispatch *)

Lemma has_function_call_first (ps : option (list Part)) :
  has_function_call ps = true <->
  exists p0 rest fc, ps = Some (p0 :: rest) /\ function_call p0 = Some fc.
Proof.
  unfold has_function_call. split.
  - destruct ps as [[|p0 rest]|]; try done.
    intros H%bool_decide_eq_true. destruct H as [fc Hfc]. by exists p0, rest, fc.
  - intros (p0 & rest & fc & -> & Hfc). apply bool_decide_eq_true. by exists fc.
Qed.

Lemma has_function_call_calls (ps : option (list Part)) :
  has_function_call ps = true -> function_calls (default [] ps) <> [].
Proof.
  intros (p0 & rest & fc & -> & Hfc)%has_function_call_first.
  unfold function_calls. cbn. by rewrite Hfc.
Qed.

(** C5, as the code has it.  Tool handling proceeds exactly when the FIRST
    part of the first response is a tool-call request.  Otherwise the
    response is returned after that one dispatch, whatever its later parts
    are.  When it proceeds, the requests are those of all the parts, in the
    order of the parts, and they are gone through in that order: the call's
    log is the first dispatch and then the bodies entered.  Either a fault
    left the loop at one of the requests, which names a registered tool:
    the registered requests before it were entered in order and returned,
    the faulting one raised in its body or before it, none after it was
    entered, and there is no second dispatch.  Or the second dispatch
    follows: the function of every request naming a registered tool (a key
    of the tools dictionary) was entered, in the order of the parts, and
    returned, and the dispatch is sent their results in that order. *)
Theorem tool_handling_iff_first_part (user_text : string) (st : Machine)
    r c1 cand ct :
  first_dispatch st user_text = (Ok r, c1) ->
  index0 (candidates r) = Ok cand ->
  content cand = Some ct ->
  (has_function_call (parts ct) = true <->
     exists p0 rest fc,
       parts ct = Some (p0 :: rest) /\ function_call p0 = Some fc)
  /\ (forall fc,
        In fc (function_calls (default [] (parts ct))) <->
        exists p, In p (default [] (parts ct)) /\ function_call p = Some fc)
  /\ (has_function_call (parts ct) = false ->
      run user_text st
      = (Ok r,
         reach st c1
           (history st ++ [user_turn user_text; content_obj (Some ct)])
           (world st)
           [dispatch_event st (history st ++ [user_turn user_text]) (Ok r)]))
  /\ (has_function_call (parts ct) = true ->
      forall out st',
        run user_text st = (out, st') ->
        exists ps invs tail,
          parts ct = Some ps
          /\ log st' = log st
                         ++ dispatch_event st (history st ++ [user_turn user_text]) (Ok r)
                         :: invs ++ tail
          /\ Forall (fun ev => is_invoke ev = true) invs
          /\ ((tail = []
               /\ exists e before fc rest oks,
                    out = Raise e
                    /\ omap function_call ps = before ++ fc :: rest
                    /\ registered (tools (self st)) fc
                    /\ Forall2 (answered (tools (self st)))
                         (filter (registered (tools (self st))) before) oks
                    /\ (invs = oks
                        \/ exists n kwargs,
                             invs = oks ++ [EvInvoke n kwargs (Raise e)]))
              \/ (exists res2,
                    tail = [dispatch_event st
                              (history st ++ user_turn user_text
                                 :: content_obj (Some ct) :: omap result_turn invs)
                              res2]
                    /\ Forall2 (answered (tools (self st)))
                         (filter (registered (tools (self st)))
                            (omap function_call ps))
                         invs)))
  /\ (forall fc,
        registered (tools (self st)) fc <->
        exists n, name fc = Some n /\ In n (map fst (tools (self st)))).
Proof.
  intros Hd Hc Hct. split; [apply has_function_call_first|]. split.
  { intros fc. unfold function_calls. rewrite <- !list_elem_of_In.
    rewrite list_elem_of_omap. by setoid_rewrite list_elem_of_In. }
  split; [|split; [|intros fc; apply registered_iff]].
  - intros Hno. run_equation. unfold first_history. by rewrite <- app_assoc.
  - intros Hyes out st' Hrun.
    destruct (proj1 (has_function_call_first _) Hyes)
      as (p0 & ps0 & fc0 & Hps & _).
    exists (p0 :: ps0).
    run_paths Hrun; same_lhs;
      match goal with
      | Hloop : loop _ _ _ _ _ _ |- _ =>
          pose proof (loop_invokes _ _ _ _ _ _ Hloop);
          rewrite (function_calls_parts _ _ Hps) in Hloop
      end.
    + exists invs, []. rewrite app_nil_r. split; [done|]. split; [done|].
      split; [done|]. left. split; [done|].
      match goal with
      | Hloop : loop _ _ _ _ (Raise ?e) _ |- _ =>
          destruct (loop_fault_prefix _ _ _ _ _ _ Hloop)
            as (before & fc & rest & oks & Hfcs & Hreg & Hoks & Hinvs);
          by exists e, before, fc, rest, oks
      end.
    + eexists invs, [_]. split; [done|]. split; [done|]. split; [done|].
      right. eexists. split; [unfold first_history; by rewrite <- app_assoc|].
      by eapply loop_ok_answered.
    + eexists invs, [_]. split; [done|]. split; [done|]. split; [done|].
      right. eexists. split; [unfold first_history; by rewrite <- app_assoc|].
      by eapply loop_ok_answered.
    + eexists invs, [_]. split; [done|]. split; [done|]. split; [done|].
      right. eexists. split; [unfold first_history; by rewrite <- app_assoc|].
      by eapply loop_ok_answered.
Qed.

(** C7, as the code has it.  A first response without tool-call requests
    is returned after that one dispatch, its content appended after the
    user's turn.  A first response whose first part is a tool-call request,
    which is its only one, names a registered tool, and whose function takes
    the arguments and returns, leads to exactly two dispatches: the second
    response is returned, and four turns have been appended (user input,
    model tool-call, tool result, final model answer), so that a history
    that was empty ends with exactly four turns. *)
Theorem one_or_two_dispatches (user_text : string) (st : Machine) r c1 cand ct :
  first_dispatch st user_text = (Ok r, c1) ->
  index0 (candidates r) = Ok cand ->
  content cand = Some ct ->
  (function_calls (default [] (parts ct)) = [] ->
   exists evs,
     run user_text st
     = (Ok r,
        reach st c1
          (history st ++ [user_turn user_text; content_obj (Some ct)])
          (world st) evs)
     /\ evs = [dispatch_event st (history st ++ [user_turn user_text]) (Ok r)]
     /\ dispatch_count evs = 1)
  /\ (forall fc n t kwargs vs v w' r2 c2 cand2 h2,
        has_function_call (parts ct) = true ->
        function_calls (default [] (parts ct)) = [fc] ->
        lookup_tool (tools (self st)) (name fc) = Some (n, t) ->
        args fc = Some kwargs ->
        bind_kwargs (params (function t)) kwargs = Ok vs ->
        body (function t) vs (world st) = (Ok v, w') ->
        h2 = history st ++ [user_turn user_text; content_obj (Some ct);
                            dict_turn "user" [function_response n v]] ->
        next_dispatch st c1 h2 = (Ok r2, c2) ->
        index0 (candidates r2) = Ok cand2 ->
        exists evs h',
          run user_text st = (Ok r2, reach st c2 h' w' evs)
          /\ h' = history st ++ [user_turn user_text; content_obj (Some ct);
                                 dict_turn "user" [function_response n v];
                                 content_obj (content cand2)]
          /\ evs = [dispatch_event st (history st ++ [user_turn user_text]) (Ok r);
                    EvInvoke n kwargs (Ok v);
                    dispatch_event st h2 (Ok r2)]
          /\ dispatch_count evs = 2
          /\ (history st = [] -> length h' = 4)).
Proof.
  intros Hd Hc Hct. split.
  - intros Hnone. eexists. split; [|by split].
    run_equation;
      try match goal with
          | Hfc : has_function_call _ = true |- _ =>
              by destruct (has_function_call_calls _ Hfc)
          end.
    unfold first_history. by rewrite <- app_assoc.
  - intros fc n t kwargs vs v w' r2 c2 cand2 h2 Hfc Hcalls Hl Hargs Hbind Hbody
      -> Hd2 Hc2.
    assert (Hb : bound_args (function t) (args fc) = Ok (kwargs, vs)).
    { rewrite Hargs. unfold bound_args. by rewrite Hbind. }
    do 2 eexists. split; [|split; [done|split; [done|split; [done|]]]].
    2:{ intros ->. done. }
    assert (Hloop : forall invs o w2,
               loop (tools (self st)) (function_calls (default [] (parts ct)))
                 (world st) invs o w2 ->
               invs = [EvInvoke n kwargs (Ok v)] /\ o = Ok tt /\ w2 = w').
    { intros invs o w2 Hloop. eapply loop_deterministic; [|exact Hloop].
      rewrite Hcalls. eapply loop_return; eauto. constructor. }
    assert (Hh2 : first_history st user_text
                    ++ content_obj (Some ct) :: omap result_turn [EvInvoke n kwargs (Ok v)]
                  = history st ++ [user_turn user_text; content_obj (Some ct);
                                   dict_turn "user" [function_response n v]]).
    { unfold first_history. by rewrite <- app_assoc. }
    run_equation;
      match goal with
      | H : loop _ _ _ _ _ _ |- _ => destruct (Hloop _ _ _ H) as (-> & ? & ->)
      end; try done;
      rewrite Hh2 in *; same_lhs.
    by rewrite <- app_assoc.
Qed.

(** ** Sequences of calls *)

(** Whatever the calls did, the history after them is the history before
    them with at least one new turn per call after it. *)
Lemma run_each_extends (inputs : list string) :
  forall st : Machine,
    exists new,
      history (run_each inputs st).2 = history st ++ new
      /\ length inputs <= length new.
Proof.
  induction inputs as [|i inputs IH]; intros st.
  - exists []. cbn. by rewrite app_nil_r.
  - cbn [run_each]. destruct (run i st) as [o st1] eqn:Hrun.
    destruct (IH st1) as (new2 & Hnew2 & Hlen).
    destruct (run_each inputs st1) as [os st2]. cbn in *.
    destruct (run_extends_history _ _ _ _ Hrun) as [new1 Hnew1].
    exists (user_turn i :: new1 ++ new2). rewrite Hnew2, Hnew1.
    split; [by rewrite <- app_assoc|]. cbn. rewrite length_app. lia.
Qed.

(** ** The shape of a call, for the properties below *)

Lemma loop_world_nil (ts : list (string * ToolEntry)) fcs w o w' :
  loop ts fcs w [] o w' -> w' = w.
Proof.
  remember [] as invs eqn:Hinvs. induction 1; try done. by apply IHloop.
Qed.

Lemma loop_events_registered (ts : list (string * ToolEntry)) fcs w invs o w' :
  loop ts fcs w invs o w' ->
  forall n kwargs res,
    In (EvInvoke n kwargs res) invs -> is_Some (dict_get ts n).
Proof.
  induction 1 as [| | |fc fcs w n t kw vs e w' Hl Hb Hbody
                   |fc fcs w n t kw vs v w1 invs o w' Hl Hb Hbody Hloop IH];
    intros n' kw' res' Hin; try done.
  - by eapply IHloop.
  - destruct Hin as [[= <- <- <-]|[]].
    apply lookup_tool_name in Hl as [_ Hl]. by rewrite Hl.
  - destruct Hin as [[= <- <- <-]|Hin]; [|by eapply IH].
    apply lookup_tool_name in Hl as [_ Hl]. by rewrite Hl.
Qed.

(** Equal machines, histories or logs, up to the bracketing of [++]. *)
Ltac shape_eq :=
  unfold reach, first_history; cbn [app omap];
  rewrite <- ?app_assoc; cbn [app]; rewrite ?app_nil_r;
  reflexivity.

(** Every call of [run], whatever path it took: the machine it leaves, in
    terms of the first dispatch, the model's turn [mid] (if the response had
    a candidate), the tool bodies entered [invs], and the second dispatch
    [tail_ev] with the turn appended after it [tail_h] (if any). *)
Lemma run_shape (user_text : string) (st : Machine) out st' :
  run user_text st = (out, st') ->
  exists c res1 invs w' mid tail_ev tail_h,
    st' = reach st c
            (history st ++ user_turn user_text
               :: mid ++ omap result_turn invs ++ tail_h)
            w'
            (dispatch_event st (history st ++ [user_turn user_text]) res1
               :: invs ++ tail_ev)
    /\ Forall (fun ev => is_invoke ev = true) invs
    /\ (invs = [] -> w' = world st)
    /\ (forall n kwargs res,
          In (EvInvoke n kwargs res) invs ->
          is_Some (dict_get (tools (self st)) n))
    /\ (mid = [] \/ exists c0, mid = [content_obj c0])
    /\ ((tail_ev = [] /\ tail_h = [])
        \/ exists res2,
             tail_ev = [dispatch_event st
                          (history st ++ user_turn user_text
                             :: mid ++ omap result_turn invs) res2]
             /\ (tail_h = [] \/ exists c2, tail_h = [content_obj c2])).
Proof.
  intros Hrun. unfold first_history in *.
  run_paths Hrun; unfold first_history in *;
    try match goal with
        | Hloop : loop _ _ _ _ _ _ |- _ =>
            pose proof (loop_invokes _ _ _ _ _ _ Hloop);
            pose proof (loop_events_registered _ _ _ _ _ _ Hloop);
            pose proof (fun E => loop_world_nil _ _ _ _ _
                                   (eq_ind _ (fun i => loop _ _ _ i _ _) Hloop _ E))
        end.
  1-2: eexists c1, _, [], _, [], [], [].
  3-4: eexists c1, _, [], _, [_], [], [].
  5: eexists c1, _, invs, _, [_], [], [].
  6-7: eexists _, _, invs, _, [_], [_], [].
  8: eexists _, _, invs, _, [_], [_], [_].
  all: split; [shape_eq|]; repeat split; eauto; try (intros; by exfalso).
  all: right; eexists; split; [shape_eq|]; eauto.
Qed.

Lemma make_config_frame (a b : Agent) :
  tools a = tools b -> system_instruction a = system_instruction b ->
  make_config a = make_config b.
Proof. unfold make_config. by intros -> ->. Qed.

Lemma dispatch_count_shape (st : Machine) h res (invs tail : list Event) :
  Forall (fun ev => is_invoke ev = true) invs ->
  dispatch_count (dispatch_event st h res :: invs ++ tail)
  = 1 + dispatch_count tail.
Proof.
  intros Hinv. rewrite app_comm_cons, dispatch_count_app.
  by rewrite dispatch_count_first.
Qed.

(** One call: what stays, how many dispatches, and what each was sent. *)
Lemma run_summary (user_text : string) (st : Machine) out st' :
  run user_text st = (out, st') ->
  model (self st') = model (self st)
  /\ tools (self st') = tools (self st)
  /\ system_instruction (self st') = system_instruction (self st)
  /\ exists evs,
       log st' = log st ++ evs
       /\ 1 <= dispatch_count evs <= 2
       /\ forall m h cfg res,
            In (EvDispatch m h cfg res) evs ->
            m = model (self st)
            /\ cfg = Some (make_config (self st))
            /\ history st `prefix_of` h
            /\ h `prefix_of` history st'.
Proof.
  intros (c & res1 & invs & w' & mid & tail_ev & tail_h & -> & Hinv & _ & _
          & _ & Htail)%run_shape.
  split; [done|]. split; [done|]. split; [done|].
  eexists. split; [reflexivity|]. split.
  - rewrite dispatch_count_shape by done.
    destruct Htail as [[-> _]|(res2 & -> & _)].
    + change (dispatch_count []) with 0. lia.
    + match goal with
      | |- context [dispatch_count [?ev]] => change (dispatch_count [ev]) with 1
      end. lia.
  - intros m h cfg res [Hin|Hin]; [|apply in_app_or in Hin as [Hin|Hin]].
    + injection Hin as <- <- <- <-. split; [done|]. split; [done|].
      split; [by eexists|]. unfold history, reach. cbn.
      exists (mid ++ omap result_turn invs ++ tail_h). by rewrite <- app_assoc.
    + by destruct (invoke_not_dispatch _ _ _ _ _ Hinv Hin).
    + destruct Htail as [[-> _]|(res2 & -> & _)]; [done|].
      destruct Hin as [Hin|[]]. injection Hin as <- <- <- <-.
      split; [reflexivity|]. split; [reflexivity|]. split; [by eexists|].
      unfold history, reach. cbn. exists tail_h.
      rewrite <- !app_assoc. cbn. by rewrite <- !app_assoc.
Qed.

(** Any sequence of calls, whatever each did. *)
Lemma run_each_summary (inputs : list string) :
  forall st : Machine,
    model (self (run_each inputs st).2) = model (self st)
    /\ tools (self (run_each inputs st).2) = tools (self st)
    /\ system_instruction (self (run_each inputs st).2) = system_instruction (self st)
    /\ exists evs,
         log (run_each inputs st).2 = log st ++ evs
         /\ length inputs <= dispatch_count evs <= 2 * length inputs
         /\ forall m h cfg res,
              In (EvDispatch m h cfg res) evs ->
              m = model (self st)
              /\ cfg = Some (make_config (self st))
              /\ history st `prefix_of` h
              /\ h `prefix_of` history (run_each inputs st).2.
Proof.
  induction inputs as [|i inputs IH]; intros st.
  - cbn. repeat split; try done. exists []. rewrite app_nil_r.
    repeat split; try done; cbn; lia.
  - cbn [run_each]. destruct (ToolsAgent.run generate_content i st) as [o st1] eqn:Hrun.
    destruct (IH st1) as (Hm2 & Ht2 & Hs2 & evs2 & Hlog2 & Hc2 & Hev2).
    pose proof (run_each_extends inputs st1) as (new2 & Hnew2 & _).
    destruct (ToolsAgent.run_each generate_content inputs st1) as [os st2].
    cbn [fst snd] in *.
    destruct (run_summary _ _ _ _ Hrun) as (Hm1 & Ht1 & Hs1 & evs1 & Hlog1 & Hc1 & Hev1).
    split; [congruence|]. split; [congruence|]. split; [congruence|].
    exists (evs1 ++ evs2). split; [by rewrite Hlog2, Hlog1, <- app_assoc|].
    split; [rewrite dispatch_count_app; cbn [length]; lia|].
    intros m h cfg res [Hin|Hin]%in_app_or.
    + destruct (Hev1 _ _ _ _ Hin) as (-> & -> & Hp1 & Hp2).
      split; [done|]. split; [done|]. split; [done|].
      etrans; [exact Hp2|]. rewrite Hnew2. by eexists.
    + destruct (Hev2 _ _ _ _ Hin) as (-> & -> & Hp1 & Hp2).
      split; [done|]. split; [by rewrite (make_config_frame _ _ Ht1 Hs1)|].
      split; [|done]. etrans; [|exact Hp1].
      destruct (run_extends_history _ _ _ _ Hrun) as [new1 ->]. by eexists.
Qed.

(** ** More properties of [run] *)

(** X1. The cost of a conversation: over any sequence of [n] calls of
    [run], whatever each did, the backend is dispatched to at least [n] times
    and at most [2 * n] times. *)
Theorem dispatch_budget (inputs : list string) (st : Machine) :
  exists evs,
    log (run_each inputs st).2 = log st ++ evs
    /\ length inputs <= dispatch_count evs
    /\ dispatch_count evs <= 2 * length inputs.
Proof.
  destruct (run_each_summary inputs st) as (_ & _ & _ & evs & Hlog & Hc & _).
  exists evs. split; [done|]. lia.
Qed.

(** X2. Calls of [run] never change the agent's model name, tools or system
    instruction, so every dispatch of a session carries the same model name
    and the same configuration: the declarations of all the registered
    tools, and the system instruction when it is not empty. *)
Theorem same_settings_in_every_dispatch (inputs : list string) (st : Machine) :
  model (self (run_each inputs st).2) = model (self st)
  /\ tools (self (run_each inputs st).2) = tools (self st)
  /\ system_instruction (self (run_each inputs st).2) = system_instruction (self st)
  /\ exists evs,
       log (run_each inputs st).2 = log st ++ evs
       /\ forall m h cfg res,
            In (EvDispatch m h cfg res) evs ->
            m = model (self st)
            /\ exists config,
                 cfg = Some config
                 /\ map function_declarations (cfg_tools config)
                    = [map (fun kt => definition kt.2) (tools (self st))]
                 /\ (cfg_system_instruction config = None <->
                     system_instruction (self st) = None
                     \/ system_instruction (self st) = Some "").
Proof.
  destruct (run_each_summary inputs st) as (Hm & Ht & Hs & evs & Hlog & _ & Hev).
  split; [done|]. split; [done|]. split; [done|].
  exists evs. split; [done|]. intros m h cfg res Hin.
  destruct (Hev _ _ _ _ Hin) as (-> & -> & _). split; [done|].
  eexists. split; [reflexivity|]. split.
  - unfold make_config, dict_values. cbn. by rewrite map_map.
  - unfold make_config. cbn.
    destruct (system_instruction (self st)) as [[|c s]|]; cbn; intuition congruence.
Qed.

(** X3. What the backend was sent is never lost afterwards: over any
    sequence of calls, the history sent with each dispatch extends the
    history the session started with and is a prefix of the history the
    session ends with. *)
Theorem sent_histories_are_kept (inputs : list string) (st : Machine) :
  exists evs,
    log (run_each inputs st).2 = log st ++ evs
    /\ forall m h cfg res,
         In (EvDispatch m h cfg res) evs ->
         history st `prefix_of` h
         /\ h `prefix_of` history (run_each inputs st).2.
Proof.
  destruct (run_each_summary inputs st) as (_ & _ & _ & evs & Hlog & _ & Hev).
  exists evs. split; [done|]. intros m h cfg res Hin.
  by destruct (Hev _ _ _ _ Hin) as (_ & _ & ? & ?).
Qed.

(** X4. [run] touches the world of the tools only through the bodies it
    enters: a call that logged no tool body (a plain answer, a fault, or
    requests that were all unregistered or did not bind) leaves the world
    as it was. *)
Theorem world_changes_only_through_tools (user_text : string) (st : Machine)
    out st' (evs : list Event) :
  run user_text st = (out, st') ->
  log st' = log st ++ evs ->
  Forall (fun ev => is_invoke ev = false) evs ->
  world st' = world st.
Proof.
  intros (c & res1 & invs & w' & mid & tail_ev & tail_h & -> & Hinv & Hw & _)%run_shape
    Hlog Hnone.
  cbn [reach log world] in *. apply app_inv_head in Hlog. subst evs.
  apply Hw. destruct invs as [|ev invs]; [done|].
  apply Forall_cons in Hnone as [_ Hnone]. apply Forall_cons in Hnone as [Hev _].
  apply Forall_cons in Hinv as [Hev' _]. congruence.
Qed.

Lemma filter_result_turns (invs : list Event) :
  filter (fun e => holds_function_response e = true) (omap result_turn invs)
  = omap result_turn invs.
Proof.
  induction invs as [|[m h cfg res|n kw [v|e]] invs IH]; [done|exact IH| |exact IH].
  change (omap result_turn (EvInvoke n kw (Ok v) :: invs))
    with (dict_turn "user" [function_response n v] :: omap result_turn invs).
  rewrite filter_cons_True by done. by rewrite IH.
Qed.

Lemma omap_result_turn_dispatches (st : Machine) h res (invs tail : list Event) :
  Forall (fun ev => is_dispatch ev = true) tail ->
  omap result_turn (dispatch_event st h res :: invs ++ tail)
  = omap result_turn invs.
Proof.
  intros Htail. cbn. rewrite omap_app.
  assert (omap result_turn tail = []) as ->; [|by rewrite app_nil_r].
  induction Htail as [|[m h' cfg res'|n kw r] tail Hev _ IH]; by cbn.
Qed.

(** X5. The function responses in the history are exactly what the tools
    returned: the result turns a call of [run] appends are, in order, one
    per tool body that was entered and returned, under the tool's name and
    holding the very value returned; and only functions of registered tools
    are ever entered. *)
Theorem results_are_returned_values (user_text : string) (st : Machine)
    out st' (new : list Entry) (evs : list Event) :
  run user_text st = (out, st') ->
  history st' = history st ++ new ->
  log st' = log st ++ evs ->
  filter (fun e => holds_function_response e = true) new
  = omap result_turn evs
  /\ forall n kwargs res,
       In (EvInvoke n kwargs res) evs ->
       is_Some (dict_get (tools (self st)) n).
Proof.
  intros (c & res1 & invs & w' & mid & tail_ev & tail_h & -> & Hinv & _ & Hreg
          & Hmid & Htail)%run_shape Hnew Hlog.
  unfold history in Hnew. cbn [reach log self set_client set_contents contents] in *.
  apply app_inv_head in Hlog, Hnew. subst evs new.
  assert (Hd : Forall (fun ev => is_dispatch ev = true) tail_ev).
  { destruct Htail as [[-> _]|(res2 & -> & _)]; by repeat constructor. }
  split.
  - rewrite (omap_result_turn_dispatches _ _ _ _ _ Hd).
    rewrite filter_cons_False by done. rewrite !filter_app, filter_result_turns.
    assert (filter (fun e => holds_function_response e = true) mid = []) as ->.
    { by destruct Hmid as [->|[c0 ->]]. }
    assert (filter (fun e => holds_function_response e = true) tail_h = []) as ->.
    { destruct Htail as [[_ ->]|(res2 & _ & [->|[c2 ->]])]; done. }
    by rewrite app_nil_r.
  - intros n kw res [Hin|Hin]; [done|]. apply in_app_or in Hin as [Hin|Hin].
    + by eapply Hreg.
    + rewrite Forall_forall in Hd. apply list_elem_of_In, Hd in Hin. done.
Qed.

(** ** The chat loop *)

Local Abbreviation run_all := (ToolsAgent.run_all generate_content).
Local Abbreviation chat := (ToolsAgent.chat generate_content).

Lemma chat_stops_at_exit (pre : list string) (kw : string) (rest : list string) :
  Forall (fun u => is_exit u = false) pre ->
  is_exit kw = true ->
  forall st : Machine,
    chat (pre ++ kw :: rest) st
    = match run_all pre st with
      | (Ok rs, st') => (Ok (rs, rest), st')
      | (Raise e, st') => (Raise e, st')
      end.
Proof.
  intros Hpre Hkw.
  induction Hpre as [|u pre Hu _ IH]; intros st.
  - cbn. by rewrite Hkw.
  - cbn [app ToolsAgent.chat ToolsAgent.run_all]. rewrite Hu. unfold bind at 1 3.
    destruct (ToolsAgent.run generate_content u st) as [[r|e] st1]; [|done].
    unfold bind. rewrite IH.
    by destruct (ToolsAgent.run_all generate_content pre st1) as [[rs|e] st2].
Qed.

(** The log of calls in a row: it only grows, and by a dispatch at least
    when a call was made. *)
Lemma run_all_log (inputs : list string) :
  forall st : Machine,
    exists evs,
      log (run_all inputs st).2 = log st ++ evs
      /\ (inputs <> [] -> 1 <= dispatch_count evs).
Proof.
  induction inputs as [|i inputs IH]; intros st.
  - exists []. cbn. by rewrite app_nil_r.
  - cbn [ToolsAgent.run_all]. unfold bind at 1.
    destruct (ToolsAgent.run generate_content i st) as [[r|e] st1] eqn:Hrun;
      destruct (run_summary _ _ _ _ Hrun) as (_ & _ & _ & evs1 & Hlog1 & Hc & _).
    + unfold bind. destruct (IH st1) as (evs2 & Hlog2 & _).
      destruct (ToolsAgent.run_all generate_content inputs st1) as [[rs|e] st2];
        unfold ret; cbn [snd] in *; exists (evs1 ++ evs2);
        (split; [by rewrite Hlog2, Hlog1, <- app_assoc|]);
        intros _; rewrite dispatch_count_app; lia.
    + exists evs1. split; [done|]. intros _. lia.
Qed.

(** X6. The chat loop stops at the first line that is [exit] or [quit] in
    any letter case: it has then made exactly the calls of [run] on the
    lines before it, in order and up to the first fault (which ends the
    script), and the lines after the keyword are left unread. *)
Theorem chat_until_exit (pre : list string) (kw : string) (rest : list string)
    (st : Machine) :
  Forall (fun u => is_exit u = false) pre ->
  is_exit kw = true ->
  chat (pre ++ kw :: rest) st
  = match run_all pre st with
    | (Ok rs, st') => (Ok (rs, rest), st')
    | (Raise e, st') => (Raise e, st')
    end.
Proof. intros Hpre Hkw. by apply chat_stops_at_exit. Qed.

(** X7. Without such a line the chat loop never ends normally: it makes the
    calls of [run] on the lines typed, up to the first fault, and if all of
    them return it ends with the [EOFError] of [input]. *)
Theorem chat_without_exit (stdin : list string) (st : Machine) :
  Forall (fun u => is_exit u = false) stdin ->
  chat stdin st
  = match run_all stdin st with
    | (Ok rs, st') => (Raise (EOFError "EOF when reading a line"), st')
    | (Raise e, st') => (Raise e, st')
    end
  /\ forall v st', chat stdin st <> (Ok v, st').
Proof.
  intros Hin.
  assert (Heq : forall st : Machine,
             chat stdin st
             = match run_all stdin st with
               | (Ok rs, st') => (Raise (EOFError "EOF when reading a line"), st')
               | (Raise e, st') => (Raise e, st')
               end).
  { induction Hin as [|u stdin Hu _ IH]; intros st0; [done|].
    cbn [ToolsAgent.chat ToolsAgent.run_all]. rewrite Hu. unfold bind at 1 3.
    destruct (ToolsAgent.run generate_content u st0) as [[r|e] st1]; [|done].
    unfold bind. rewrite IH.
    by destruct (ToolsAgent.run_all generate_content stdin st1) as [[rs|e] st2]. }
  split; [apply Heq|]. intros v st'. rewrite Heq.
  by destruct (ToolsAgent.run_all generate_content stdin st) as [[rs|e] st2].
Qed.

Local Abbreviation main := (ToolsAgent.main generate_content).

Lemma run_all_snoc (inputs : list string) (q : string) :
  forall st : Machine,
    run_all (inputs ++ [q]) st
    = match run_all inputs st with
      | (Ok rs, st') =>
          match run q st' with
          | (Ok r, st'') => (Ok (rs ++ [r]), st'')
          | (Raise e, st'') => (Raise e, st'')
          end
      | (Raise e, st') => (Raise e, st')
      end.
Proof.
  induction inputs as [|i inputs IH]; intros st.
  - cbn [app ToolsAgent.run_all]. unfold bind, ret.
    by destruct (ToolsAgent.run generate_content q st) as [[r|e] st1].
  - cbn [app ToolsAgent.run_all]. unfold bind, ret.
    destruct (ToolsAgent.run generate_content i st) as [[r|e] st1]; [|done].
    rewrite IH.
    destruct (ToolsAgent.run_all generate_content inputs st1) as [[rs|e] st2];
      [|done].
    by destruct (ToolsAgent.run generate_content q st2) as [[r2|e] st3].
Qed.

(** X15. The program always asks its own question after the chat: on
    input whose first exit line comes after the lines [pre], it makes the
    calls of [run] on [pre] and then on the built-in question, up to the
    first fault, and then displays the transcript.  So even a user who
    types only [exit] causes a dispatch. *)
Theorem main_asks_its_question (pre : list string) (kw : string)
    (rest : list string) (st : Machine) :
  Forall (fun u => is_exit u = false) pre ->
  is_exit kw = true ->
  main (pre ++ kw :: rest) st
  = match run_all (pre ++ [question]) st with
    | (Ok rs, st') => display st'
    | (Raise e, st') => (Raise e, st')
    end
  /\ exists evs,
       log (main (pre ++ kw :: rest) st).2 = log st ++ evs
       /\ 1 <= dispatch_count evs.
Proof.
  intros Hpre Hkw.
  assert (Heq : main (pre ++ kw :: rest) st
                = match run_all (pre ++ [question]) st with
                  | (Ok rs, st') => display st'
                  | (Raise e, st') => (Raise e, st')
                  end).
  { unfold ToolsAgent.main. unfold bind at 1.
    rewrite (chat_stops_at_exit pre kw rest Hpre Hkw st), run_all_snoc.
    destruct (ToolsAgent.run_all generate_content pre st) as [[rs|e] st1]; [|done].
    unfold bind.
    by destruct (ToolsAgent.run generate_content question st1) as [[r|e] st2]. }
  split; [exact Heq|]. rewrite Heq.
  destruct (run_all_log (pre ++ [question]) st) as (evs & Hlog & Hc).
  exists evs. split; [|apply Hc; by destruct pre].
  destruct (ToolsAgent.run_all generate_content (pre ++ [question]) st)
    as [[rs|e] st1]; cbn [snd] in *; [|done].
  unfold display. by destruct (show_history _) as [ls [[]|x]].
Qed.

(** ** The transcript *)

Lemma no_header_in_dict_parts (ps : list DictPart) :
  filter (fun l => is_header l = true) (flat_map show_dict_part ps) = [].
Proof. induction ps as [|[s|n v] ps IH]; [done|exact IH|exact IH]. Qed.

Lemma no_header_in_parts (ps : list Part) :
  filter (fun l => is_header l = true) (flat_map show_part ps) = [].
Proof.
  induction ps as [|p ps IH]; [done|]. cbn [flat_map]. rewrite filter_app, IH.
  unfold show_part. destruct (text p) as [[|c s]|]; [|done|];
    by destruct (function_call p).
Qed.

(** The display from index [i]: whether it comes to its end, and the
    headers it prints when it does. *)
Lemma show_from_spec (h : list Entry) :
  forall i,
    ((show_from i h).2 = Ok tt <-> Forall showable h)
    /\ (Forall showable h ->
        filter (fun l => is_header l = true) (show_from i h).1
        = map header_line (seq (i + 1) (length h)))
    /\ (~ Forall showable h ->
        exists msg, (show_from i h).2 = Raise (TypeError msg)).
Proof.
  induction h as [|e h IH]; intros i.
  - cbn. split; [done|]. split; [done|]. intros []. constructor.
  - destruct (IH (S i)) as (Hiff & Hheaders & Hfault).
    cbn [show_from].
    assert (Hentry :
              (showable e
               /\ (show_entry i e).2 = Ok tt
               /\ filter (fun l => is_header l = true) (show_entry i e).1
                  = [header_line (i + 1)])
              \/ (~ showable e
                  /\ exists msg, (show_entry i e).2 = Raise (TypeError msg))).
    { destruct e as [r ps|[c|]]; cbn [show_entry showable].
      - left. split; [done|]. split; [done|]. cbn [fst].
        rewrite filter_cons_True by done. rewrite filter_cons_False by done.
        by rewrite no_header_in_dict_parts.
      - destruct (parts c) as [ps|] eqn:Hps.
        + left. split; [done|]. split; [done|]. cbn [fst].
          rewrite filter_cons_True by done. rewrite filter_cons_False by done.
          by rewrite no_header_in_parts.
        + right. split; [by intros [? ?]|]. by eexists.
      - left. by repeat split. }
    destruct Hentry as [(He & Hok & Hh)|(He & msg & Hraise)].
    + destruct (show_entry i e) as [ls [[]|x]]; [|done]. cbn [fst snd] in *.
      destruct (show_from (S i) h) as [ls' o] eqn:Hrest. cbn [fst snd] in *.
      split; [|split].
      * rewrite Hiff. split; [by constructor|]. by intros [_ ?]%Forall_cons.
      * intros [_ Hall]%Forall_cons. rewrite filter_app, Hh, (Hheaders Hall).
        cbn [length seq map app]. by replace (S i + 1) with (S (i + 1)) by lia.
      * intros Hnot. apply Hfault. intros Hall. apply Hnot. by constructor.
    + destruct (show_entry i e) as [ls [[]|x]]; [done|]. cbn [fst snd] in *.
      split; [|split].
      * split; [done|]. by intros [? _]%Forall_cons.
      * by intros [? _]%Forall_cons.
      * intros _. by exists msg.
Qed.

(** The display from index [i] of a history with an entry that cannot be
    shown: it stops at the first one, after that entry's header and role. *)
Lemma show_from_first_fault (h : list Entry) :
  forall i,
    ~ Forall showable h ->
    exists pre c rest,
      h = pre ++ content_obj (Some c) :: rest
      /\ Forall showable pre
      /\ parts c = None
      /\ show_from i h
         = ((show_from i pre).1
              ++ [header_line (i + length pre + 1);
                  [lit "  角色: "; fmt (shown_str (role c))]],
            Raise (TypeError "'NoneType' object is not iterable")).
Proof.
  induction h as [|e h IH]; intros i Hnot.
  - destruct Hnot. constructor.
  - assert (Hentry :
              (showable e /\ exists ls, show_entry i e = (ls, Ok tt))
              \/ (exists c, e = content_obj (Some c) /\ parts c = None)).
    { destruct e as [r ps|[c|]]; cbn [show_entry showable].
      - left. split; [done|]. by eexists.
      - destruct (parts c) as [ps|] eqn:Hps.
        + left. split; [done|]. by eexists.
        + right. by exists c.
      - left. split; [done|]. by eexists. }
    destruct Hentry as [(He & ls & Hls)|(c & -> & Hps)].
    + destruct (IH (S i)) as (pre & c & rest & -> & Hpre & Hps & Hshow).
      { intros Hall. apply Hnot. by constructor. }
      exists (e :: pre), c, rest. split; [done|]. split; [by constructor|].
      split; [done|]. cbn [app show_from]. rewrite Hls, Hshow.
      destruct (show_from (S i) pre) as [ls' o]. cbn [fst length].
      rewrite <- app_assoc. by replace (S i + length pre + 1)
        with (i + S (length pre) + 1) by lia.
    + exists [], c, h. split; [done|]. split; [constructor|]. split; [done|].
      cbn [app show_from show_entry fst length]. rewrite Hps.
      by replace (i + 0 + 1) with (i + 1) by lia.
Qed.

(** X8. The transcript display comes to its end exactly when no model turn
    of the history is a content object without parts; it then prints one
    header per entry, numbered from 1 in the order of the history.
    Otherwise it stops at the first such entry: it has printed the
    transcript of the entries before it, then that entry's header and role,
    and ends there with a [TypeError]; nothing of the later entries is
    printed. *)
Theorem transcript_shows_or_faults (h : list Entry) :
  ((show_history h).2 = Ok tt <-> Forall showable h)
  /\ (Forall showable h ->
      filter (fun l => is_header l = true) (show_history h).1
      = map header_line (seq 1 (length h)))
  /\ (~ Forall showable h ->
      exists pre c rest,
        h = pre ++ content_obj (Some c) :: rest
        /\ Forall showable pre
        /\ parts c = None
        /\ (show_history pre).2 = Ok tt
        /\ show_history h
           = ((show_history pre).1
                ++ [header_line (length pre + 1);
                    [lit "  角色: "; fmt (shown_str (role c))]],
              Raise (TypeError "'NoneType' object is not iterable"))).
Proof.
  destruct (show_from_spec h 0) as (Hiff & Hheaders & _).
  split; [exact Hiff|]. split; [exact Hheaders|]. intros Hnot.
  destruct (show_from_first_fault h 0 Hnot)
    as (pre & c & rest & Hh & Hpre & Hps & Hshow).
  exists pre, c, rest. split; [done|]. split; [done|]. split; [done|].
  split; [by apply (show_from_spec pre 0)|]. exact Hshow.
Qed.

(** X9. [run] takes a response whose content has no parts for a final
    answer and returns it, but the history it leaves cannot be displayed:
    the transcript then ends with a [TypeError]. *)
Theorem response_without_parts_breaks_transcript (user_text : string)
    (st : Machine) r c1 cand ct :
  first_dispatch st user_text = (Ok r, c1) ->
  index0 (candidates r) = Ok cand ->
  content cand = Some ct ->
  parts ct = None ->
  exists st',
    run user_text st = (Ok r, st')
    /\ history st' = history st ++ [user_turn user_text; content_obj (Some ct)]
    /\ exists msg, (show_history (history st')).2 = Raise (TypeError msg).
Proof.
  intros Hd Hc Hct Hps. eexists. split; [|split].
  - rewrite (run_after_first _ _ _ _ _ _ Hd Hc Hct).
    unfold after_first_dispatch. rewrite Hps. reflexivity.
  - reflexivity.
  - apply show_from_spec. unfold history, reach. cbn.
    intros Hall. apply Forall_app in Hall as [_ Hall].
    apply Forall_cons in Hall as [_ Hall]. apply Forall_cons in Hall as [Hbad _].
    cbn in Hbad. rewrite Hps in Hbad. by destruct Hbad.
Qed.

(** ** The declarations and the functions of [file_tools] *)

Variable open_read : Value -> W -> Outcome Value * W.
Variable open_write : Value -> Value -> W -> Outcome unit * W.
Variable expanduser : Value -> W -> Outcome Value * W.
Variable listdir : Value -> W -> Outcome Value * W.

Local Abbreviation file_tools :=
  (ToolsAgent.file_tools open_read open_write expanduser listdir).

(** X10. What the model is told matches what is run: the keys of
    [file_tools] are distinct, every declaration is named as its key, and
    the properties its schema declares, all of them required, are exactly
    the parameters of the function, in order.  So arguments that hold
    exactly the required properties always bind. *)
Theorem file_tools_match_their_declarations :
  NoDup (map fst file_tools)
  /\ Forall
       (fun kt =>
          fd_name (definition kt.2) = kt.1
          /\ properties_of (parameters (definition kt.2)) = params (function kt.2)
          /\ required_of (parameters (definition kt.2)) = params (function kt.2)
          /\ forall kwargs : gmap string Value,
               (forall k,
                   is_Some (kwargs !! k)
                   <-> k ∈ required_of (parameters (definition kt.2))) ->
               exists vs, bind_kwargs (params (function kt.2)) kwargs = Ok vs)
       file_tools.
Proof.
  split.
  - cbn. by apply (bool_decide_unpack _).
  - repeat constructor; cbn [fst snd];
      intros kwargs Hdom;
      destruct (bind_kwargs_exact _ kwargs Hdom) as (vs & Hvs & _); eauto.
Qed.

End Props.

End ToolsAgentProps.

(** * Properties of [geminiTest.py] *)

Module GeminiTestProps.

Import GeminiTest.

Section Props.

Context {B : Type}.
Variable generate_content :
  B -> string -> list Entry -> option GenerateContentConfig -> Outcome Response * B.

Local Abbreviation Machine := (@GeminiTest.Machine B).
Local Abbreviation dispatch := (GeminiTest.dispatch generate_content).
Local Abbreviation run := (GeminiTest.run generate_content).
Local Abbreviation run_all := (GeminiTest.run_all generate_content).
Local Abbreviation run_each := (GeminiTest.run_each generate_content).
Local Abbreviation the_dispatch := (GeminiTest.the_dispatch generate_content).

(** What a call of [run] does, by what the backend answers. *)
Lemma run_cases (user_text : string) (st : Machine) :
  let h1 := history st ++ [user_turn user_text] in
  let ev res := EvDispatch (model (self st)) h1 None res in
  run user_text st =
  match the_dispatch st user_text with
  | (Raise e, c') =>
      (Raise e,
       {| self := {| model := model (self st); client := c'; contents := h1 |};
          log := log st ++ [ev (Raise e)] |})
  | (Ok r, c') =>
      match index0 (candidates r) with
      | Raise e =>
          (Raise e,
           {| self := {| model := model (self st); client := c'; contents := h1 |};
              log := log st ++ [ev (Ok r)] |})
      | Ok cand =>
          (Ok r,
           {| self := {| model := model (self st); client := c';
                         contents := h1 ++ [content_obj (content cand)] |};
              log := log st ++ [ev (Ok r)] |})
      end
  end.
Proof.
  unfold run, bind, append, dispatch, lift, ret, the_dispatch, history. cbn.
  destruct (generate_content _ _ _ _) as [[r|e] c']; cbn; [|done].
  by destruct (index0 (candidates r)).
Qed.

Lemma simple_run_extends_history (user_text : string) (st : Machine) out st' :
  run user_text st = (out, st') ->
  exists new, history st' = history st ++ user_turn user_text :: new.
Proof.
  rewrite run_cases. cbv zeta.
  destruct (the_dispatch st user_text) as [[r|e] c'];
    [destruct (index0 (candidates r))|]; intros [= <- <-]; unfold history; cbn.
  - rewrite <- app_assoc. eauto.
  - by exists [].
  - by exists [].
Qed.

Lemma simple_run_each_extends (inputs : list string) :
  forall st : Machine,
    exists new,
      history (run_each inputs st).2 = history st ++ new
      /\ length inputs <= length new.
Proof.
  induction inputs as [|i inputs IH]; intros st.
  - exists []. cbn. by rewrite app_nil_r.
  - cbn [run_each]. destruct (run i st) as [o st1] eqn:Hrun.
    destruct (IH st1) as (new2 & Hnew2 & Hlen).
    destruct (run_each inputs st1) as [os st2]. cbn in *.
    destruct (simple_run_extends_history _ _ _ _ Hrun) as [new1 Hnew1].
    exists (user_turn i :: new1 ++ new2). rewrite Hnew2, Hnew1.
    split; [by rewrite <- app_assoc|]. cbn. rewrite length_app. lia.
Qed.

(** One call: its one dispatch, and what it leaves when it returns. *)
Lemma run_once (user_text : string) (st : Machine) out st' :
  run user_text st = (out, st') ->
  exists res,
    log st' = log st
                ++ [EvDispatch (model (self st))
                      (history st ++ [user_turn user_text]) None res]
    /\ (exists new, history st' = history st ++ user_turn user_text :: new)
    /\ forall r,
         out = Ok r ->
         res = Ok r
         /\ exists cand,
              index0 (candidates r) = Ok cand
              /\ history st'
                 = history st ++ [user_turn user_text; content_obj (content cand)].
Proof.
  intros Hrun. pose proof (simple_run_extends_history _ _ _ _ Hrun) as Hext.
  rewrite run_cases in Hrun. cbv zeta in Hrun.
  destruct (the_dispatch st user_text) as [[r|e] c'];
    [destruct (index0 (candidates r)) as [cand|e] eqn:Hc|];
    injection Hrun as <- <-; eexists; (split; [reflexivity|]);
    (split; [exact Hext|]); intros r0 [=].
  subst r0. split; [done|]. exists cand. split; [done|].
  unfold history. cbn. by rewrite <- app_assoc.
Qed.

(** The entries and dispatches of calls in a row, whatever each call did:
    every call adds one or two entries and one dispatch. *)
Lemma run_each_counts (inputs : list string) :
  forall st : Machine,
    exists new,
      history (run_each inputs st).2 = history st ++ new
      /\ length inputs <= length new
      /\ length new <= 2 * length inputs
      /\ dispatch_count (log (run_each inputs st).2)
         = dispatch_count (log st) + length inputs.
Proof.
  induction inputs as [|i inputs IH]; intros st.
  - exists []. cbn. rewrite app_nil_r. repeat split; lia.
  - cbn [GeminiTest.run_each].
    destruct (GeminiTest.run generate_content i st) as [o st1] eqn:Hrun.
    destruct (IH st1) as (new2 & Hnew2 & Hlo & Hhi & Hdis).
    destruct (GeminiTest.run_each generate_content inputs st1) as [os st2].
    cbn [fst snd] in *.
    assert (H1 : exists new1,
               history st1 = history st ++ new1
               /\ 1 <= length new1 <= 2
               /\ dispatch_count (log st1) = dispatch_count (log st) + 1).
    { rewrite run_cases in Hrun. cbv zeta in Hrun.
      destruct (the_dispatch st i) as [[r|e] c'];
        [destruct (index0 (candidates r)) as [cand|e]|];
        injection Hrun as <- <-; unfold history; cbn [self contents log];
        rewrite ToolsAgentProps.dispatch_count_app.
      - exists [user_turn i; content_obj (content cand)].
        split; [by rewrite <- app_assoc|]. split; [cbn; lia|done].
      - exists [user_turn i]. split; [done|]. split; [cbn; lia|done].
      - exists [user_turn i]. split; [done|]. split; [cbn; lia|done]. }
    destruct H1 as (new1 & Hnew1 & Hlen1 & Hdis1).
    exists (new1 ++ new2). rewrite Hnew2, Hnew1, <- app_assoc.
    split; [done|]. rewrite length_app. cbn [length].
    split; [lia|]. split; [lia|]. rewrite Hdis, Hdis1. lia.
Qed.

(** C10, as the code has it.  Every call of the tool-less [run] performs
    exactly one exchange with the backend: [generate_content] on the
    agent's client and model, without configuration, with the history
    extended by a user-role turn holding the given text; the client is left
    as that exchange left it, the model name is kept and so are the earlier
    entries.  When the exchange returns a response that has a candidate, the
    call returns that response and has appended exactly two entries: the
    user's turn, then the content of the response's first candidate.  When
    the exchange raises, or the response has no candidate, the call raises
    and has appended exactly one entry, the user's turn.  So [n] calls that
    all return add [2 * n] entries (and leave a history that was empty with
    exactly [2 * n]); [n] calls of any kind add between [n] and [2 * n]
    entries, with [n] dispatches. *)
Theorem run_appends_one_or_two_entries :
  (forall (user_text : string) (st : Machine) res c',
      generate_content (client (self st)) (model (self st))
        (history st ++ [dict_turn "user" [text_part user_text]]) None
      = (res, c') ->
      log (run user_text st).2
      = log st ++ [EvDispatch (model (self st))
                     (history st ++ [dict_turn "user" [text_part user_text]])
                     None res]
      /\ client (self (run user_text st).2) = c'
      /\ model (self (run user_text st).2) = model (self st)
      /\ match res with
         | Ok r =>
             match index0 (candidates r) with
             | Ok cand =>
                 (run user_text st).1 = Ok r
                 /\ history (run user_text st).2
                    = history st
                        ++ [dict_turn "user" [text_part user_text];
                            content_obj (content cand)]
             | Raise e =>
                 (run user_text st).1 = Raise e
                 /\ history (run user_text st).2
                    = history st ++ [dict_turn "user" [text_part user_text]]
             end
         | Raise e =>
             (run user_text st).1 = Raise e
             /\ history (run user_text st).2
                = history st ++ [dict_turn "user" [text_part user_text]]
         end)
  /\ (forall (inputs : list string) (st : Machine) rs st',
        run_all inputs st = (Ok rs, st') ->
        length rs = length inputs
        /\ length (history st') = length (history st) + 2 * length inputs
        /\ dispatch_count (log st') = dispatch_count (log st) + length inputs
        /\ (history st = [] -> length (history st') = 2 * length inputs))
  /\ (forall (inputs : list string) (st : Machine),
        exists new,
          history (run_each inputs st).2 = history st ++ new
          /\ length inputs <= length new
          /\ length new <= 2 * length inputs
          /\ dispatch_count (log (run_each inputs st).2)
             = dispatch_count (log st) + length inputs).
Proof.
  split; [|split; [|intros inputs st; apply run_each_counts]].
  { intros user_text st res c' Hgen.
    rewrite run_cases. cbv zeta. unfold GeminiTest.the_dispatch, user_turn.
    rewrite Hgen.
    destruct res as [r|e]; [destruct (index0 (candidates r)) as [cand|e]|];
      cbn [fst snd self log client model];
      (do 3 (split; [done|])); (split; [done|]);
      unfold history; cbn [self contents]; by rewrite <- ?app_assoc. }
  induction inputs as [|i inputs IH]; intros st rs st' Hall.
  - injection Hall as <- <-. cbn. repeat split; try lia. by intros ->.
  - cbn [run_all] in Hall. unfold bind at 1 in Hall.
    destruct (run i st) as [[r|e] st1] eqn:Hrun; [|done].
    unfold bind at 1 in Hall.
    destruct (run_all inputs st1) as [[rs1|e] st2] eqn:Hrest; [|done].
    injection Hall as <- <-.
    destruct (run_once _ _ _ _ Hrun) as (res & Hlog & _ & Hret).
    destruct (Hret r eq_refl) as (-> & cand & _ & Hh).
    destruct (IH _ _ _ Hrest) as (Hlen & Hhist & Hdis & _).
    assert (Hsum : length (history st2) = length (history st) + 2 * length (i :: inputs)).
    { rewrite Hhist, Hh, length_app. cbn. lia. }
    split; [cbn; by rewrite Hlen|]. split; [exact Hsum|]. split.
    + rewrite Hdis, Hlog, ToolsAgentProps.dispatch_count_app.
      match goal with
      | |- context [dispatch_count [?ev]] => change (dispatch_count [ev]) with 1
      end.
      cbn [length]. lia.
    + intros Hnil. rewrite Hsum, Hnil. cbn. lia.
Qed.

(** A call that returns: what it leaves. *)
Lemma run_returns (user_text : string) (st : Machine) r st1 :
  run user_text st = (Ok r, st1) ->
  model (self st1) = model (self st)
  /\ log st1 = log st
                 ++ [EvDispatch (model (self st))
                       (history st ++ [user_turn user_text]) None (Ok r)]
  /\ exists c, history st1 = history st ++ [user_turn user_text; content_obj c].
Proof.
  rewrite run_cases. cbv zeta.
  destruct (the_dispatch st user_text) as [[r0|e] c'];
    [destruct (index0 (candidates r0)) as [cand|e]|]; intros [= <- <-].
  split; [done|]. split; [done|]. exists (content cand).
  unfold history. cbn. by rewrite <- app_assoc.
Qed.

(** X11. The tool-less agent sends the whole conversation every time: in a
    row of calls that all return, the dispatch of call number [k] (from 0)
    carries the agent's model name, no configuration, and exactly the
    history before the calls, the [k] earlier questions each followed by its
    answer, and the new question. *)
Theorem each_call_sends_the_whole_conversation (inputs : list string) :
  forall (st : Machine) rs st',
    run_all inputs st = (Ok rs, st') ->
    exists evs new,
      log st' = log st ++ evs
      /\ history st' = history st ++ new
      /\ length evs = length inputs
      /\ length new = 2 * length inputs
      /\ forall k ev,
           evs !! k = Some ev ->
           exists res,
             ev = EvDispatch (model (self st))
                    (take (length (history st) + 2 * k + 1) (history st'))
                    None res.
Proof.
  induction inputs as [|i inputs IH]; intros st rs st' Hall.
  - injection Hall as <- <-. exists [], []. rewrite !app_nil_r.
    repeat split; try done.
  - cbn [GeminiTest.run_all] in Hall. unfold bind at 1 in Hall.
    destruct (GeminiTest.run generate_content i st) as [[r|e] st1] eqn:Hrun; [|done].
    unfold bind at 1 in Hall.
    destruct (GeminiTest.run_all generate_content inputs st1) as [[rs1|e] st2] eqn:Hrest;
      [|done].
    injection Hall as <- <-.
    destruct (run_returns _ _ _ _ Hrun) as (Hm & Hlog & c & Hh).
    destruct (IH _ _ _ Hrest) as (evs & new & Hlog2 & Hh2 & Hlen & Hlen2 & Hev).
    eexists (_ :: evs), (_ :: _ :: new).
    split; [by rewrite Hlog2, Hlog, <- app_assoc|].
    split; [by rewrite Hh2, Hh, <- app_assoc|].
    split; [cbn; by rewrite Hlen|]. split; [cbn; rewrite Hlen2; lia|].
    intros [|k] ev Hk.
    + injection Hk as <-. eexists. f_equal.
      rewrite Hh2, Hh.
      replace (history st ++ [user_turn i; content_obj c])
        with ((history st ++ [user_turn i]) ++ [content_obj c])
        by (by rewrite <- app_assoc).
      rewrite <- app_assoc.
      replace (length (history st) + 2 * 0 + 1)
        with (length (history st ++ [user_turn i]))
        by (rewrite length_app; cbn; lia).
      by rewrite take_app_length.
    + destruct (Hev k ev Hk) as [res ->]. exists res. rewrite Hm. f_equal.
      f_equal. rewrite Hh, length_app. cbn. lia.
Qed.

(** X12. A call that ends with a fault (the dispatch raised, or the
    response had no candidate) leaves the user's turn in the history, and
    nothing else; so the next call sends that question again, before its
    own. *)
Theorem failed_call_keeps_the_question (user_text next_text : string)
    (st : Machine) e st1 :
  run user_text st = (Raise e, st1) ->
  history st1 = history st ++ [user_turn user_text]
  /\ exists res,
       log (run next_text st1).2
       = log st1
           ++ [EvDispatch (model (self st))
                 (history st ++ [user_turn user_text; user_turn next_text])
                 None res].
Proof.
  intros Hrun.
  assert (Hst1 : history st1 = history st ++ [user_turn user_text]
                 /\ model (self st1) = model (self st)).
  { rewrite run_cases in Hrun. cbv zeta in Hrun.
    destruct (the_dispatch st user_text) as [[r0|e0] c'];
      [destruct (index0 (candidates r0)) as [cand|e0]|];
      by simplify_eq. }
  destruct Hst1 as [Hh Hm]. split; [done|].
  destruct (run next_text st1) as [out st2] eqn:Hnext.
  destruct (run_once _ _ _ _ Hnext) as (res & Hlog & _).
  exists res. cbn [snd]. rewrite Hlog, Hm, Hh. by rewrite <- app_assoc.
Qed.

End Props.

End GeminiTestProps.

(** * Properties of [list_models.py] *)

Module ListModelsProps.

Import ListModels.

Section Props.

Context {C : Type}.
Variable new_client : string -> Outcome C.
Variable list_models : C -> list Model * option Exn.
Variable is_Exception : Exn -> bool.

Local Abbreviation script := (ListModels.script new_client list_models is_Exception).

Lemma truthy_key (v : option string) :
  truthy v = true <-> exists c k, v = Some (String c k).
Proof.
  split.
  - destruct v as [[|c k]|]; try done. eauto.
  - by intros (c & k & ->).
Qed.

Lemma separators_of_models (models : list Model) :
  length (filter (fun l => is_separator l = true) (flat_map show_model models))
  = length models.
Proof.
  induction models as [|m models IH]; [done|].
  cbn [flat_map]. rewrite filter_app, length_app, IH. cbn [length]. f_equal.
  unfold show_model.
  destruct (supported_generation_methods m), (display_name m); reflexivity.
Qed.

(** X13. The key the script uses is [GEMINI_API_KEY] when that is set to a
    non-empty string, and [GOOGLE_API_KEY] otherwise.  When neither is set
    to a non-empty string, the script prints its two lines of advice and
    stops at the [exit(1)] of line 9, whatever the SDK would do: no client
    is made and no model listed.  When one is, the script goes past line 9
    and makes the client with that key, outside the [try]: a fault of
    [genai.Client] is not caught and ends the script before it has printed
    anything (which also gives the process a non-zero status, so the status
    alone does not tell a missing key from a failed client); with a client,
    the script prints its title first and does not end by [exit(1)]. *)
Theorem key_selection (environ : gmap string string) :
  (truthy (environ !! "GEMINI_API_KEY") = true ->
   api_key environ = environ !! "GEMINI_API_KEY")
  /\ (truthy (environ !! "GEMINI_API_KEY") = false ->
      api_key environ = environ !! "GOOGLE_API_KEY")
  /\ (truthy (environ !! "GEMINI_API_KEY") = false
      /\ truthy (environ !! "GOOGLE_API_KEY") = false ->
      script environ
      = ([[lit "错误: 请先设置 GEMINI_API_KEY 或 GOOGLE_API_KEY 环境变量"];
          [lit "例如: export GEMINI_API_KEY='your-api-key'"]],
         exited 1))
  /\ (truthy (environ !! "GEMINI_API_KEY") = true
      \/ truthy (environ !! "GOOGLE_API_KEY") = true ->
      exists key,
        api_key environ = Some key
        /\ key <> EmptyString
        /\ match new_client key with
           | Raise e => script environ = ([], crashed e)
           | Ok client =>
               exists lines ending,
                 script environ
                 = ([lit ("可用的 Gemini 模型：" ++ newline)%string] :: lines, ending)
                 /\ ending <> exited 1
           end).
Proof.
  assert (Hkey : truthy (api_key environ)
                 = truthy (environ !! "GEMINI_API_KEY")
                   || truthy (environ !! "GOOGLE_API_KEY")).
  { unfold api_key, py_or.
    destruct (truthy (environ !! "GEMINI_API_KEY")) eqn:E; [by rewrite E|done]. }
  split; [|split; [|split]].
  - unfold api_key, py_or. by intros ->.
  - unfold api_key, py_or. by intros ->.
  - intros [H1 H2]. rewrite H1, H2 in Hkey. unfold ListModels.script.
    by destruct (api_key environ) as [[|c k]|].
  - intros Hsome.
    assert (Htrue : truthy (api_key environ) = true).
    { rewrite Hkey. apply orb_true_iff. exact Hsome. }
    destruct (api_key environ) as [[|c k]|] eqn:Hk; try done.
    exists (String c k). split; [done|]. split; [done|].
    unfold ListModels.script. rewrite Hk.
    destruct (new_client (String c k)) as [client|e]; [|done].
    destruct (list_models client) as [models [e|]].
    + destruct (is_Exception e); do 2 eexists; by split.
    + do 2 eexists. by split.
Qed.

(** X14. With a key and a client, the script ends with exit status 0
    whether the listing came to its end or was stopped by an [Exception],
    which it catches: a failed listing is not reported in the exit status.
    It has printed one separator line per model received, and after a fault
    its last line shows the exception. *)
Theorem listing_fault_is_caught (environ : gmap string string) c k client models
    fault :
  api_key environ = Some (String c k) ->
  new_client (String c k) = Ok client ->
  list_models client = (models, fault) ->
  (forall e, fault = Some e -> is_Exception e = true) ->
  (script environ).2 = exited 0
  /\ length (filter (fun l => is_separator l = true) (script environ).1)
     = length models
  /\ forall e, fault = Some e ->
       last (script environ).1 = Some [lit "列出模型时出错: "; fmt (shown_exn e)].
Proof.
  intros Hkey Hclient Hlist Hfault. unfold ListModels.script.
  rewrite Hkey, Hclient, Hlist. destruct fault as [e|].
  - rewrite (Hfault e eq_refl). cbn [fst snd]. split; [done|]. split.
    + rewrite filter_app, length_app.
      rewrite filter_cons_False by done. rewrite separators_of_models.
      rewrite filter_cons_False by done. cbn. lia.
    + intros e' [= <-]. apply last_snoc.
  - cbn [fst snd]. split; [done|]. split; [|done].
    rewrite filter_cons_False by done. apply separators_of_models.
Qed.

End Props.

End ListModelsProps.

(** * The claims on the scenarios *)

(** ** C1: a request for a tool that is not registered *)

(** The request for [does_not_exist] leaves no trace in the history: the
    call ends normally with the second response, and the history holds the
    user's turn and the two model turns, none of them a function response,
    let alone one carrying an error. *)
Lemma unknown_tool_gets_no_result :
  dict_get toy_tools "does_not_exist" = None
  /\ unknown_tool_run.1 = Ok (answer [says "I have no such tool."])
  /\ ToolsAgent.history unknown_tool_run.2
     = [ user_turn "Use does_not_exist.";
         content_obj (Some (model_turn [calls "does_not_exist" []]));
         content_obj (Some (model_turn [says "I have no such tool."])) ]
  /\ existsb holds_function_response (ToolsAgent.history unknown_tool_run.2) = false.
Proof. vm_compute. by repeat split. Qed.

Lemma unknown_tool_is_skipped_witness :
  ToolsAgent.run_function_call
    {| name := Some "does_not_exist"; args := Some ∅ |} (session [])
  = (Ok tt, session [])
  /\ forall rest,
       for_each ToolsAgent.run_function_call
         ({| name := Some "does_not_exist"; args := Some ∅ |} :: rest) (session [])
       = for_each ToolsAgent.run_function_call rest (session []).
Proof.
  apply (ToolsAgentProps.unknown_tool_is_skipped
           {| name := Some "does_not_exist"; args := Some ∅ |} (session [])).
  intros n [= <-]. reflexivity.
Defined.

(** ** C2: a tool that raises *)

(** [read_file] on a file that does not exist: the call of [run] ends with
    the [FileNotFoundError], after one dispatch, and no function response
    was appended. *)
Lemma missing_file_aborts_run :
  missing_file_run.1 = Raise (PyExn "FileNotFoundError" "missing.txt")
  /\ dispatch_count (ToolsAgent.log missing_file_run.2) = 1
  /\ ToolsAgent.history missing_file_run.2
     = [ user_turn "Show me missing.txt.";
         content_obj
           (Some (model_turn [calls "read_file" [("file_path", VStr "missing.txt")]])) ]
  /\ existsb holds_function_response (ToolsAgent.history missing_file_run.2) = false.
Proof. vm_compute. by repeat split. Qed.

Lemma tool_fault_propagates_witness :
  missing_file_run.1 = Raise (PyExn "FileNotFoundError" "missing.txt")
  /\ (exists before,
        ToolsAgent.log missing_file_run.2
        = before ++ [EvInvoke "read_file"
                       (list_to_map [("file_path", VStr "missing.txt")])
                       (Raise (PyExn "FileNotFoundError" "missing.txt"))])
  /\ dispatch_count (ToolsAgent.log missing_file_run.2) = 1
  /\ exists ct,
       ToolsAgent.history missing_file_run.2
       = ToolsAgent.history (session missing_file_script)
           ++ user_turn "Show me missing.txt."
           :: content_obj (Some ct)
           :: omap ToolsAgent.result_turn (ToolsAgent.log missing_file_run.2).
Proof.
  apply (ToolsAgentProps.tool_fault_propagates scripted "Show me missing.txt."
           (session missing_file_script)).
  - vm_compute. reflexivity.
  - reflexivity.
  - vm_compute. tauto.
Defined.

(** ** C3: two requests in one response *)

(** Two requests give two appended user-role turns of one function
    response each, not one turn of two: the history sent with the second
    dispatch has four entries, where a single result turn would make
    three. *)
Lemma two_requests_two_turns :
  ToolsAgent.log two_listings_run.2 !! 3
  = Some (ToolsAgent.dispatch_event (session two_listings_script)
            [ user_turn "List the directory twice.";
              content_obj
                (Some (model_turn [calls "list_dir" [("directory_path", VStr ".")];
                                   calls "list_dir" [("directory_path", VStr ".")]]));
              dict_turn "user"
                [function_response "list_dir" (VList [VStr "a.txt"; VStr "b.txt"])];
              dict_turn "user"
                [function_response "list_dir" (VList [VStr "a.txt"; VStr "b.txt"])] ]
            (Ok (answer [says "a.txt, b.txt"])))
  /\ length (filter (fun e => holds_function_response e = true)
               (ToolsAgent.history two_listings_run.2)) = 2.
Proof. vm_compute. by split. Qed.

Lemma one_result_turn_per_call_witness :
  exists r c1 cand ct ps invs turns res2,
    ToolsAgent.first_dispatch scripted (session two_listings_script)
      "List the directory twice." = (Ok r, c1)
    /\ index0 (candidates r) = Ok cand
    /\ content cand = Some ct
    /\ parts ct = Some ps
    /\ ToolsAgent.log two_listings_run.2
       = ToolsAgent.dispatch_event (session two_listings_script)
           (ToolsAgent.history (session two_listings_script)
              ++ [user_turn "List the directory twice."]) (Ok r)
           :: invs
           ++ [ToolsAgent.dispatch_event (session two_listings_script)
                 (ToolsAgent.history (session two_listings_script)
                    ++ user_turn "List the directory twice."
                    :: content_obj (Some ct) :: turns) res2]
    /\ Forall (fun ev => is_invoke ev = true) invs
    /\ Forall2 ToolsAgent.result_for
         (filter (ToolsAgent.registered
                    (ToolsAgent.tools (ToolsAgent.self (session two_listings_script))))
            (omap function_call ps))
         turns
    /\ (Forall (ToolsAgent.registered
                  (ToolsAgent.tools (ToolsAgent.self (session two_listings_script))))
          (omap function_call ps) ->
        length turns = length (omap function_call ps))
    /\ (forall fc,
          ToolsAgent.registered
            (ToolsAgent.tools (ToolsAgent.self (session two_listings_script))) fc <->
          exists n,
            name fc = Some n
            /\ In n (map fst (ToolsAgent.tools
                                (ToolsAgent.self (session two_listings_script))))).
Proof.
  apply (ToolsAgentProps.one_result_turn_per_call scripted "List the directory twice."
           (session two_listings_script) two_listings_run.1 two_listings_run.2).
  - vm_compute. reflexivity.
  - reflexivity.
  - vm_compute. reflexivity.
Defined.

(** ** C4: arguments that do not fit the function *)

(** [write_file] called without [contents]: the call of [run] ends with a
    [TypeError] after one dispatch; no function response was appended, and
    the files are as they were. *)
Lemma write_without_contents_aborts_run :
  write_without_contents_run.1
  = Raise (TypeError "missing a required positional argument")
  /\ dispatch_count (ToolsAgent.log write_without_contents_run.2) = 1
  /\ existsb holds_function_response
       (ToolsAgent.history write_without_contents_run.2) = false
  /\ ToolsAgent.world write_without_contents_run.2
     = ToolsAgent.world (session write_without_contents_script).
Proof. vm_compute. by repeat split. Qed.

Lemma arguments_bound_by_name_only_witness :
  exists msg,
    ToolsAgent.run_function_call
      {| name := Some "write_file";
         args := Some (list_to_map [("file_path", VStr "/tmp/x")]) |}
      (session [])
    = (Raise (TypeError msg), session []).
Proof.
  destruct (ToolsAgentProps.arguments_bound_by_name_only scripted toy_tools
              {| name := Some "write_file";
                 args := Some (list_to_map [("file_path", VStr "/tmp/x")]) |}
              "write_file"
              {| ToolsAgent.definition := ToolsAgent.write_file_definition;
                 ToolsAgent.function := ToolsAgent.write_file toy_open_write |}
              (list_to_map [("file_path", VStr "/tmp/x")])
              eq_refl eq_refl) as [Hbad _].
  destruct Hbad as (msg & Hcall & _).
  - left. exists "contents". split; [|reflexivity].
    apply list_elem_of_In. cbn. tauto.
  - exists msg. apply Hcall. reflexivity.
Defined.

(** ** C5: text first, then a request *)

(** The response holds a request for [list_dir] in second place, after a
    text part: no tool is handled.  The call returns that first response
    after its one dispatch, and no function was entered. *)
Lemma text_then_call_not_handled :
  ToolsAgent.function_calls
    [says "Let me look."; calls "list_dir" [("directory_path", VStr ".")]]
  = [ {| name := Some "list_dir";
         args := Some (list_to_map [("directory_path", VStr ".")]) |} ]
  /\ text_then_call_run.1
     = Ok (answer [says "Let me look.";
                   calls "list_dir" [("directory_path", VStr ".")]])
  /\ ToolsAgent.log text_then_call_run.2
     = [ ToolsAgent.dispatch_event (session text_then_call_script)
           [user_turn "Which files are here?"]
           (Ok (answer [says "Let me look.";
                        calls "list_dir" [("directory_path", VStr ".")]])) ]
  /\ existsb is_invoke (ToolsAgent.log text_then_call_run.2) = false.
Proof. vm_compute. by repeat split. Qed.

Lemma tool_handling_iff_first_part_witness :
  ToolsAgent.has_function_call
    (Some [says "Let me look."; calls "list_dir" [("directory_path", VStr ".")]])
  = false
  /\ text_then_call_run
     = (Ok (answer [says "Let me look.";
                    calls "list_dir" [("directory_path", VStr ".")]]),
        ToolsAgent.reach (session text_then_call_script)
          [Ok (answer [says "a.txt, b.txt"])]
          [ user_turn "Which files are here?";
            content_obj
              (Some (model_turn [says "Let me look.";
                                 calls "list_dir" [("directory_path", VStr ".")]])) ]
          (ToolsAgent.world (session text_then_call_script))
          [ ToolsAgent.dispatch_event (session text_then_call_script)
              [user_turn "Which files are here?"]
              (Ok (answer [says "Let me look.";
                           calls "list_dir" [("directory_path", VStr ".")]])) ]).
Proof.
  split; [reflexivity|].
  destruct (ToolsAgentProps.tool_handling_iff_first_part scripted
              "Which files are here?" (session text_then_call_script)
              (answer [says "Let me look.";
                       calls "list_dir" [("directory_path", VStr ".")]])
              [Ok (answer [says "a.txt, b.txt"])]
              {| content :=
                   Some (model_turn [says "Let me look.";
                                     calls "list_dir" [("directory_path", VStr ".")]]) |}
              (model_turn [says "Let me look.";
                           calls "list_dir" [("directory_path", VStr ".")]])
              eq_refl eq_refl eq_refl) as (_ & _ & Hno & _).
  apply Hno. reflexivity.
Defined.

(** A first response that asks for [write_file], says something, and asks
    for [read_file] on the same file: the two functions are entered in the
    order of the parts, so the read returns what the write wrote, and the
    two results are appended in that order. *)
Example requests_run_in_the_order_of_the_parts :
  omap (fun ev => match ev with
                  | EvInvoke n _ res => Some (n, res)
                  | EvDispatch _ _ _ _ => None
                  end)
    (ToolsAgent.log
       (Scenario.run "Write c.txt and read it back."
          [ Ok (answer [ calls "write_file" [("file_path", VStr "c.txt");
                                             ("contents", VStr "gamma")];
                         says "and then";
                         calls "read_file" [("file_path", VStr "c.txt")] ]);
            Ok (answer [says "done"]) ]).2)
  = [("write_file", Ok (VBool true)); ("read_file", Ok (VStr "gamma"))]
  /\ filter (fun e => holds_function_response e = true)
       (ToolsAgent.history
          (Scenario.run "Write c.txt and read it back."
             [ Ok (answer [ calls "write_file" [("file_path", VStr "c.txt");
                                                ("contents", VStr "gamma")];
                            says "and then";
                            calls "read_file" [("file_path", VStr "c.txt")] ]);
               Ok (answer [says "done"]) ]).2)
     = [ dict_turn "user" [function_response "write_file" (VBool true)];
         dict_turn "user" [function_response "read_file" (VStr "gamma")] ].
Proof. vm_compute. by split. Qed.

(** ** C6: a second response that asks for tools again *)

(** The second response asks for [read_file]: it is returned as it is, and
    the only function entered is the [list_dir] of the first round. *)
Example second_round_is_not_executed :
  second_round_run.1
  = Ok (answer [calls "read_file" [("file_path", VStr "a.txt")]])
  /\ map is_dispatch (ToolsAgent.log second_round_run.2) = [true; false; true]
  /\ ToolsAgent.log second_round_run.2 !! 1
     = Some (EvInvoke "list_dir" (list_to_map [("directory_path", VStr ".")])
               (Ok (VList [VStr "a.txt"; VStr "b.txt"])))
  /\ length (ToolsAgent.history second_round_run.2) = 4.
Proof. vm_compute. by repeat split. Qed.

Lemma at_most_one_tool_round_witness :
  exists d1 invs tail,
    ToolsAgent.log second_round_run.2
    = ToolsAgent.log (session second_round_script) ++ d1 :: invs ++ tail
    /\ is_dispatch d1 = true
    /\ Forall (fun ev => is_invoke ev = true) invs
    /\ dispatch_count (d1 :: invs ++ tail) <= 2
    /\ (tail = [] \/
        exists h2 res2,
          tail = [ToolsAgent.dispatch_event (session second_round_script) h2 res2]
          /\ forall r2 cand2,
               res2 = Ok r2 -> index0 (candidates r2) = Ok cand2 ->
               second_round_run.1 = Ok r2
               /\ ToolsAgent.history second_round_run.2
                  = h2 ++ [content_obj (content cand2)]).
Proof.
  apply (ToolsAgentProps.at_most_one_tool_round scripted "Which files are here?"
           (session second_round_script)).
  vm_compute. reflexivity.
Defined.

(** ** C7: one dispatch or two *)

(** The scenario of the script's header (lines 15-30): four turns, two
    dispatches, one local execution. *)
Example four_turns :
  listing_run.1 = Ok (answer [says "a.txt, b.txt"])
  /\ ToolsAgent.history listing_run.2
     = [ user_turn "Which files are here?";
         content_obj (Some (model_turn [calls "list_dir" [("directory_path", VStr ".")]]));
         dict_turn "user"
           [function_response "list_dir" (VList [VStr "a.txt"; VStr "b.txt"])];
         content_obj (Some (model_turn [says "a.txt, b.txt"])) ]
  /\ map is_dispatch (ToolsAgent.log listing_run.2) = [true; false; true].
Proof. vm_compute. by repeat split. Qed.

(** A first response with exactly one tool-call request does not always
    lead to two dispatches and four turns: a request for an unregistered
    tool leaves three turns in a fresh history, a request that comes after
    a text part leads to one dispatch and two turns, and a request whose
    function raises leads to one dispatch, two turns and no response. *)
Lemma one_request_not_always_four_turns :
  (length (ToolsAgent.function_calls [calls "does_not_exist" []]) = 1
   /\ ToolsAgent.history (session unknown_tool_script) = []
   /\ dispatch_count (ToolsAgent.log unknown_tool_run.2) = 2
   /\ length (ToolsAgent.history unknown_tool_run.2) = 3)
  /\ (length (ToolsAgent.function_calls
                [says "Let me look.";
                 calls "list_dir" [("directory_path", VStr ".")]]) = 1
      /\ ToolsAgent.history (session text_then_call_script) = []
      /\ dispatch_count (ToolsAgent.log text_then_call_run.2) = 1
      /\ length (ToolsAgent.history text_then_call_run.2) = 2)
  /\ (length (ToolsAgent.function_calls
                [calls "read_file" [("file_path", VStr "missing.txt")]]) = 1
      /\ ToolsAgent.history (session missing_file_script) = []
      /\ dispatch_count (ToolsAgent.log missing_file_run.2) = 1
      /\ length (ToolsAgent.history missing_file_run.2) = 2
      /\ missing_file_run.1 = Raise (PyExn "FileNotFoundError" "missing.txt")).
Proof. vm_compute. by repeat split. Qed.

Lemma one_or_two_dispatches_witness :
  (berlin_run.1 = Ok (answer [says "Berlin"])
   /\ dispatch_count (ToolsAgent.log berlin_run.2) = 1)
  /\ (listing_run.1 = Ok (answer [says "a.txt, b.txt"])
      /\ dispatch_count (ToolsAgent.log listing_run.2) = 2
      /\ length (ToolsAgent.history listing_run.2) = 4).
Proof.
  split.
  - destruct (ToolsAgentProps.one_or_two_dispatches scripted "Germany's capital?"
                (session berlin_script) (answer [says "Berlin"]) []
                {| content := Some (model_turn [says "Berlin"]) |}
                (model_turn [says "Berlin"]) eq_refl eq_refl eq_refl)
      as [Hnone _].
    destruct (Hnone eq_refl) as (evs & Hrun & -> & Hcount).
    unfold berlin_run, Scenario.run. rewrite Hrun. split; [reflexivity|exact Hcount].
  - destruct (ToolsAgentProps.one_or_two_dispatches scripted "Which files are here?"
                (session listing_script)
                (answer [calls "list_dir" [("directory_path", VStr ".")]])
                [Ok (answer [says "a.txt, b.txt"])]
                {| content :=
                     Some (model_turn [calls "list_dir" [("directory_path", VStr ".")]]) |}
                (model_turn [calls "list_dir" [("directory_path", VStr ".")]])
                eq_refl eq_refl eq_refl)
      as [_ Hone].
    destruct (Hone
                {| name := Some "list_dir";
                   args := Some (list_to_map [("directory_path", VStr ".")]) |}
                "list_dir"
                {| ToolsAgent.definition := ToolsAgent.list_dir_definition;
                   ToolsAgent.function := ToolsAgent.list_dir toy_expanduser toy_listdir |}
                (list_to_map [("directory_path", VStr ".")])
                [VStr "."]
                (VList [VStr "a.txt"; VStr "b.txt"])
                [("a.txt", "alpha"); ("b.txt", "beta")]
                (answer [says "a.txt, b.txt"]) []
                {| content := Some (model_turn [says "a.txt, b.txt"]) |}
                _
                eq_refl eq_refl eq_refl eq_refl eq_refl eq_refl eq_refl eq_refl
                eq_refl)
      as (evs & h' & Hrun & -> & -> & Hcount & Hlen).
    unfold listing_run, Scenario.run. rewrite Hrun.
    split; [reflexivity|]. split; [exact Hcount|]. exact (Hlen eq_refl).
Defined.

(** ** C9: a backend outage at the second dispatch *)

Lemma dispatch_fault_propagates_witness :
  outage_run.1 = Raise (PyExn "ServerError" "503 UNAVAILABLE")
  /\ ToolsAgent.history outage_run.2
     = [ user_turn "Which files are here?";
         content_obj (Some (model_turn [calls "list_dir" [("directory_path", VStr ".")]]));
         dict_turn "user"
           [function_response "list_dir" (VList [VStr "a.txt"; VStr "b.txt"])] ].
Proof.
  destruct (ToolsAgentProps.dispatch_fault_propagates scripted "Which files are here?"
              (session outage_script) outage_run.1 outage_run.2
              (ToolsAgent.log outage_run.2)
              "gemini-2.5-flash"
              [ user_turn "Which files are here?";
                content_obj
                  (Some (model_turn [calls "list_dir" [("directory_path", VStr ".")]]));
                dict_turn "user"
                  [function_response "list_dir" (VList [VStr "a.txt"; VStr "b.txt"])] ]
              (Some (ToolsAgent.make_config (ToolsAgent.self (session outage_script))))
              (PyExn "ServerError" "503 UNAVAILABLE"))
    as (Hout & Hhist & _).
  - vm_compute. reflexivity.
  - reflexivity.
  - vm_compute. tauto.
  - by split.
Defined.

(** ** C8: the history only grows *)

(** C8. For every sequence of calls of [run] on one session, of either
    agent and whatever each call did (returned or raised), the history
    after the calls is the history before them followed by new turns, at
    least one per call: its length only grows, and every turn that was there
    is still at its position, unchanged. *)
Theorem conversation_store_append_only :
  (forall (B W : Type)
          (generate_content :
             B -> string -> list Entry -> option GenerateContentConfig
             -> Outcome Response * B)
          (inputs : list string) (st : ToolsAgent.Machine (B := B) (W := W)),
      let st' := (ToolsAgent.run_each generate_content inputs st).2 in
      (exists new,
          ToolsAgent.history st' = ToolsAgent.history st ++ new
          /\ length inputs <= length new)
      /\ length (ToolsAgent.history st) + length inputs
         <= length (ToolsAgent.history st')
      /\ forall i e,
           ToolsAgent.history st !! i = Some e ->
           ToolsAgent.history st' !! i = Some e)
  /\ (forall (B : Type)
             (generate_content :
                B -> string -> list Entry -> option GenerateContentConfig
                -> Outcome Response * B)
             (inputs : list string) (st : GeminiTest.Machine (B := B)),
        let st' := (GeminiTest.run_each generate_content inputs st).2 in
        (exists new,
            GeminiTest.history st' = GeminiTest.history st ++ new
            /\ length inputs <= length new)
        /\ length (GeminiTest.history st) + length inputs
           <= length (GeminiTest.history st')
        /\ forall i e,
             GeminiTest.history st !! i = Some e ->
             GeminiTest.history st' !! i = Some e).
Proof.
  split.
  - intros B W gc inputs st st'.
    destruct (ToolsAgentProps.run_each_extends gc inputs st) as (new & Hnew & Hlen).
    fold st' in Hnew. split; [by exists new|]. rewrite Hnew. split.
    + rewrite length_app. lia.
    + intros i e Hi. by apply lookup_app_l_Some.
  - intros B gc inputs st st'.
    destruct (GeminiTestProps.simple_run_each_extends gc inputs st) as (new & Hnew & Hlen).
    fold st' in Hnew. split; [by exists new|]. rewrite Hnew. split.
    + rewrite length_app. lia.
    + intros i e Hi. by apply lookup_app_l_Some.
Qed.

(** Two calls that raise and one that returns: the history kept every
    turn, in order. *)
Example history_after_faults :
  ToolsAgent.history
    (ToolsAgent.run_each scripted ["first"; "second"; "third"]
       (session [ Raise (PyExn "ServerError" "503 UNAVAILABLE");
                  Ok (answer [calls "read_file" [("file_path", VStr "missing.txt")]]);
                  Ok (answer [says "Berlin"]) ])).2
  = [ user_turn "first";
      user_turn "second";
      content_obj
        (Some (model_turn [calls "read_file" [("file_path", VStr "missing.txt")]]));
      user_turn "third";
      content_obj (Some (model_turn [says "Berlin"])) ].
Proof. vm_compute. reflexivity. Qed.

(** ** C10: the script of [geminiTest.py] *)

(** A call whose dispatch raises, and a call whose response has no
    candidate: each made its one dispatch, raised, and left one new entry in
    the history, not two. *)
Lemma failed_call_appends_one_entry :
  failed_cities_run.1 = Raise (PyExn "ServerError" "503 UNAVAILABLE")
  /\ GeminiTest.history failed_cities_run.2
     = [dict_turn "user" [text_part "Which cities?"]]
  /\ dispatch_count (GeminiTest.log failed_cities_run.2) = 1
  /\ (GeminiTest.run scripted "Which cities?"
        (cities_session [Ok {| candidates := Some [] |}])).1
     = Raise (IndexError "list index out of range")
  /\ GeminiTest.history
       (GeminiTest.run scripted "Which cities?"
          (cities_session [Ok {| candidates := Some [] |}])).2
     = [dict_turn "user" [text_part "Which cities?"]].
Proof. vm_compute. by repeat split. Qed.

Lemma run_appends_one_or_two_entries_witness :
  (GeminiTest.run scripted "Which cities?" (cities_session cities_script)).1
  = Ok (answer [says "Berlin, Munich, Cologne"])
  /\ GeminiTest.history
       (GeminiTest.run scripted "Which cities?" (cities_session cities_script)).2
     = [ dict_turn "user" [text_part "Which cities?"];
         content_obj (Some (model_turn [says "Berlin, Munich, Cologne"])) ]
  /\ length (GeminiTest.history cities_run.2) = 4
  /\ dispatch_count (GeminiTest.log cities_run.2) = 2.
Proof.
  destruct (GeminiTestProps.run_appends_one_or_two_entries scripted)
    as (Hone & Hall & _).
  destruct (Hone "Which cities?" (cities_session cities_script)
              (Ok (answer [says "Berlin, Munich, Cologne"]))
              [Ok (answer [says "Munich is the capital of Bavaria."])]
              eq_refl)
    as (_ & _ & _ & Hret & Hhist).
  destruct (Hall ["你好,德国最值得游览的前 3 个城市是什么?只返回城市名称。";
                  "告诉我关于第二个城市的一些事情。"]
              (cities_session cities_script)
              [answer [says "Berlin, Munich, Cologne"];
               answer [says "Munich is the capital of Bavaria."]]
              cities_run.2)
    as (_ & _ & Hcount & Hlen).
  - vm_compute. reflexivity.
  - split; [exact Hret|]. split; [exact Hhist|].
    split; [exact (Hlen eq_refl)|exact Hcount].
Defined.

(** * The further properties on the scenarios *)

(** X4: the request for an unregistered tool leaves the files alone. *)
Lemma world_changes_only_through_tools_witness :
  ToolsAgent.world unknown_tool_run.2
  = ToolsAgent.world (session unknown_tool_script).
Proof.
  apply (ToolsAgentProps.world_changes_only_through_tools scripted
           "Use does_not_exist." (session unknown_tool_script)
           unknown_tool_run.1 unknown_tool_run.2
           (ToolsAgent.log unknown_tool_run.2)).
  - vm_compute. reflexivity.
  - reflexivity.
  - vm_compute. by repeat constructor.
Defined.

(** X5: the one result turn of the listing is what [list_dir] returned. *)
Lemma results_are_returned_values_witness :
  filter (fun e => holds_function_response e = true)
    (ToolsAgent.history listing_run.2)
  = omap ToolsAgent.result_turn (ToolsAgent.log listing_run.2)
  /\ forall n kwargs res,
       In (EvInvoke n kwargs res) (ToolsAgent.log listing_run.2) ->
       is_Some (dict_get
                  (ToolsAgent.tools (ToolsAgent.self (session listing_script))) n).
Proof.
  apply (ToolsAgentProps.results_are_returned_values scripted
           "Which files are here?" (session listing_script)
           listing_run.1 listing_run.2).
  - vm_compute. reflexivity.
  - reflexivity.
  - reflexivity.
Defined.

(** X6: the chat ends at [EXIT], after one call, with a line unread. *)
Lemma chat_until_exit_witness :
  ToolsAgent.chat scripted chat_lines (session listing_script)
  = match ToolsAgent.run_all scripted ["Which files are here?"]
            (session listing_script) with
    | (Ok rs, st') => (Ok (rs, ["never read"]), st')
    | (Raise e, st') => (Raise e, st')
    end.
Proof.
  apply (ToolsAgentProps.chat_until_exit scripted ["Which files are here?"]
           "EXIT" ["never read"] (session listing_script)).
  - by repeat constructor.
  - reflexivity.
Defined.

(** X7: the same chat without its exit line ends with [EOFError]. *)
Lemma chat_without_exit_witness :
  ToolsAgent.chat scripted ["Which files are here?"] (session listing_script)
  = match ToolsAgent.run_all scripted ["Which files are here?"]
            (session listing_script) with
    | (Ok rs, st') => (Raise (EOFError "EOF when reading a line"), st')
    | (Raise e, st') => (Raise e, st')
    end
  /\ forall v st',
       ToolsAgent.chat scripted ["Which files are here?"] (session listing_script)
       <> (Ok v, st').
Proof.
  apply (ToolsAgentProps.chat_without_exit scripted ["Which files are here?"]
           (session listing_script)).
  by repeat constructor.
Defined.

(** X15: typing only [quit] still asks the built-in question. *)
Lemma main_asks_its_question_witness :
  ToolsAgent.main scripted ["quit"] (session listing_script)
  = match ToolsAgent.run_all scripted [ToolsAgent.question]
            (session listing_script) with
    | (Ok rs, st') => ToolsAgent.display st'
    | (Raise e, st') => (Raise e, st')
    end
  /\ exists evs,
       ToolsAgent.log (ToolsAgent.main scripted ["quit"] (session listing_script)).2
       = ToolsAgent.log (session listing_script) ++ evs
       /\ 1 <= dispatch_count evs.
Proof.
  apply (ToolsAgentProps.main_asks_its_question scripted [] "quit" []
           (session listing_script)).
  - constructor.
  - reflexivity.
Defined.

(** The program on the toy file system, from its start: the session of
    the scenarios is the program's starting machine, and the whole program
    on [quit] leaves the four turns of the built-in question. *)
Example program_on_quit :
  session listing_script
  = ToolsAgent.start toy_open_read toy_open_write toy_expanduser toy_listdir
      listing_script [("a.txt", "alpha"); ("b.txt", "beta")]
  /\ length (ToolsAgent.history
               (ToolsAgent.main scripted ["quit"] (session listing_script)).2) = 4.
Proof. split; [reflexivity|]. vm_compute. reflexivity. Qed.

(** X9: a response without parts is returned, and breaks the transcript. *)
Lemma response_without_parts_breaks_transcript_witness :
  exists st',
    ToolsAgent.run scripted "Say nothing." (session [Ok empty_answer])
    = (Ok empty_answer, st')
    /\ ToolsAgent.history st'
       = ToolsAgent.history (session [Ok empty_answer])
           ++ [ user_turn "Say nothing.";
                content_obj (Some {| role := Some "model"; parts := None |}) ]
    /\ exists msg,
         (ToolsAgent.show_history (ToolsAgent.history st')).2
         = Raise (TypeError msg).
Proof.
  apply (ToolsAgentProps.response_without_parts_breaks_transcript scripted
           "Say nothing." (session [Ok empty_answer]) empty_answer []
           {| content := Some {| role := Some "model"; parts := None |} |}).
  all: reflexivity.
Defined.

(** The transcript of the four turns, and of the history a response
    without parts leaves. *)
Example transcripts :
  (ToolsAgent.show_history (ToolsAgent.history listing_run.2)).2 = Ok tt
  /\ filter (fun l => ToolsAgent.is_header l = true)
       (ToolsAgent.show_history (ToolsAgent.history listing_run.2)).1
     = map ToolsAgent.header_line [1; 2; 3; 4]
  /\ length (ToolsAgent.show_history (ToolsAgent.history listing_run.2)).1 = 12
  /\ (ToolsAgent.show_history (ToolsAgent.history empty_answer_run.2)).2
     = Raise (TypeError "'NoneType' object is not iterable").
Proof. vm_compute. by repeat split. Qed.

(** X11: the second call of the script of [geminiTest.py] sends three
    turns. *)
Lemma each_call_sends_the_whole_conversation_witness :
  exists evs new,
    GeminiTest.log cities_run.2 = GeminiTest.log (cities_session cities_script) ++ evs
    /\ GeminiTest.history cities_run.2
       = GeminiTest.history (cities_session cities_script) ++ new
    /\ length evs = 2
    /\ length new = 2 * 2
    /\ forall k ev,
         evs !! k = Some ev ->
         exists res,
           ev = EvDispatch
                  (GeminiTest.model (GeminiTest.self (cities_session cities_script)))
                  (take (length (GeminiTest.history (cities_session cities_script))
                         + 2 * k + 1)
                     (GeminiTest.history cities_run.2))
                  None res.
Proof.
  apply (GeminiTestProps.each_call_sends_the_whole_conversation scripted
           ["你好,德国最值得游览的前 3 个城市是什么?只返回城市名称。";
            "告诉我关于第二个城市的一些事情。"]
           (cities_session cities_script)
           [answer [says "Berlin, Munich, Cologne"];
            answer [says "Munich is the capital of Bavaria."]]
           cities_run.2).
  vm_compute. reflexivity.
Defined.

(** X12: after an outage the question is in the history, and is sent
    again with the next one. *)
Lemma failed_call_keeps_the_question_witness :
  GeminiTest.history failed_cities_run.2
  = GeminiTest.history (cities_session outage_then_answer)
      ++ [user_turn "Which cities?"]
  /\ exists res,
       GeminiTest.log (GeminiTest.run scripted "Which cities?" failed_cities_run.2).2
       = GeminiTest.log failed_cities_run.2
           ++ [EvDispatch
                 (GeminiTest.model (GeminiTest.self (cities_session outage_then_answer)))
                 (GeminiTest.history (cities_session outage_then_answer)
                    ++ [user_turn "Which cities?"; user_turn "Which cities?"])
                 None res].
Proof.
  apply (GeminiTestProps.failed_call_keeps_the_question scripted
           "Which cities?" "Which cities?" (cities_session outage_then_answer)
           (PyExn "ServerError" "503 UNAVAILABLE")).
  vm_compute. reflexivity.
Defined.

(** X14: the listing fails after two models; the script still ends with
    status 0. *)
Lemma listing_fault_is_caught_witness :
  (ListModels.script toy_new_client toy_list_models toy_is_Exception google_only).2
  = ListModels.exited 0
  /\ length (filter (fun l => ListModels.is_separator l = true)
               (ListModels.script toy_new_client toy_list_models toy_is_Exception
                  google_only).1)
     = length two_models
  /\ forall e,
       Some (PyExn "ServerError" "503 UNAVAILABLE") = Some e ->
       last (ListModels.script toy_new_client toy_list_models toy_is_Exception
               google_only).1
       = Some [lit "列出模型时出错: "; fmt (shown_exn e)].
Proof.
  eapply (ListModelsProps.listing_fault_is_caught toy_new_client toy_list_models
            toy_is_Exception google_only _ "-key" "g-key" two_models
           (Some (PyExn "ServerError" "503 UNAVAILABLE"))).
  - reflexivity.
  - reflexivity.
  - reflexivity.
  - intros e [= <-]. reflexivity.
Defined.

(** A client that cannot be made: the fault is not caught, and nothing was
    printed. *)
Example client_fault_is_not_caught :
  ListModels.script
    (fun _ : string => Raise (PyExn "ValueError" "bad key") : Outcome string)
    toy_list_models toy_is_Exception google_only
  = ([], ListModels.crashed (PyExn "ValueError" "bad key")).
Proof. reflexivity. Qed.

(** The three ways of the key: none, an empty first one, and both. *)
Example keys :
  (ListModels.script toy_new_client toy_list_models toy_is_Exception ∅).2
  = ListModels.exited 1
  /\ ListModels.api_key google_only = Some "g-key"
  /\ ListModels.api_key
       {[ "GEMINI_API_KEY" := "m-key"; "GOOGLE_API_KEY" := "g-key" ]}
     = Some "m-key"
  /\ ListModels.api_key {[ "GEMINI_API_KEY" := "" ]} = None
  /\ ListModels.api_key {[ "GOOGLE_API_KEY" := "" ]} = Some "".
Proof. vm_compute. by repeat split. Qed.
